(** * Skill registry, unlock-state reducers and exposure middleware

    A shallow embedding of the core of [skill_system2]:
    - [core/state.py]       the three merge policies for [skills_loaded];
    - [core/base_skill.py]  [SkillMetadata], [BaseSkill] and [validate];
    - [core/exceptions.py]  the exception classes;
    - [core/registry.py]    [SkillRegistry];
    - [middleware/*.py]     [SkillMiddleware] and [SimpleSkillMiddleware].

    Python lists are Rocq lists, Python [int]s are [Z], [str] is [string]
    (ASCII), a [dict] is an insertion-ordered association list, and a
    method that may raise returns a [result]. Methods that mutate the
    registry return the outcome together with the registry as it is when
    the method returns or raises. Calls to [logger] have no effect on any
    value computed here and are left out. *)

From Stdlib Require Import List String Ascii ZArith NArith Lia Bool FinFun Permutation.
Import ListNotations.
Open Scope string_scope.
Open Scope list_scope.

(* ================================================================== *)
(** * Part I: the model                                                *)
(* ================================================================== *)

(** ** Python values used by the code *)

Module Py.

(** [s in l] for a list of strings. *)
Definition contains (s : string) (l : list string) : bool :=
  existsb (String.eqb s) l.

(** Index adjustment of a slice bound (step 1), as CPython's
    [PySlice_AdjustIndices] does it: a negative bound counts from the
    end, and every bound is clamped to [0, len]. *)
Definition adjust_index (len i : Z) : Z :=
  if (i <? 0)%Z then Z.max 0 (i + len) else Z.min i len.

(** [l[:stop]] *)
Definition slice_to {A} (l : list A) (stop : Z) : list A :=
  firstn (Z.to_nat (adjust_index (Z.of_nat (List.length l)) stop)) l.

(** [l[start:]] *)
Definition slice_from {A} (l : list A) (start : Z) : list A :=
  skipn (Z.to_nat (adjust_index (Z.of_nat (List.length l)) start)) l.

(** Truth value of a list: [not l] is [true] exactly on the empty list. *)
Definition list_truthy {A} (l : list A) : bool :=
  match l with [] => false | _ :: _ => true end.

(** Truth value of a string. *)
Definition str_truthy (s : string) : bool :=
  match s with EmptyString => false | String _ _ => true end.

(** [str.lower()] on ASCII text. *)
Definition lower_ascii (c : ascii) : ascii :=
  let n := N_of_ascii c in
  if ((65 <=? n) && (n <=? 90))%N then ascii_of_N (n + 32) else c.

Fixpoint lower (s : string) : string :=
  match s with
  | EmptyString => EmptyString
  | String c s' => String (lower_ascii c) (lower s')
  end.

(** [str.upper()] on ASCII text. *)
Definition upper_ascii (c : ascii) : ascii :=
  let n := N_of_ascii c in
  if ((97 <=? n) && (n <=? 122))%N then ascii_of_N (n - 32) else c.

Fixpoint upper (s : string) : string :=
  match s with
  | EmptyString => EmptyString
  | String c s' => String (upper_ascii c) (upper s')
  end.

(** [needle in hay] for strings: substring test. *)
Fixpoint str_in (needle hay : string) : bool :=
  String.prefix needle hay
  || match hay with
     | EmptyString => false
     | String _ hay' => str_in needle hay'
     end.

End Py.

(** ** core/state.py *)

Module State.

(** [skill_list_reducer]: replace mode. *)
Definition skill_list_reducer (current new : list string) : list string :=
  new.

(** [skill_list_accumulator]: accumulate mode. *)
Definition skill_list_accumulator (current new : list string) : list string :=
  if negb (Py.list_truthy current) then new
  else
    let combined :=
      current ++ filter (fun s => negb (Py.contains s current)) new in
    combined.

(** [skill_list_fifo(max_skills)]: the closure [reducer] it returns. *)
Definition skill_list_fifo (max_skills : Z) : list string -> list string -> list string :=
  fun current new =>
    if negb (Py.list_truthy current) then Py.slice_to new max_skills
    else
      let combined :=
        current ++ filter (fun s => negb (Py.contains s current)) new in
      Py.slice_from combined (- max_skills).

End State.

(** The merge policies as the specification words them. *)
Module StateSpec.

(** "current followed by every element of incoming not already present
    in current". *)
Definition dedup_concat (current incoming : list string) : list string :=
  current ++ filter (fun s => if in_dec string_dec s current then false else true) incoming.

(** "the first [n] elements". *)
Definition first_n {A} (n : nat) (l : list A) : list A := firstn n l.

(** "the last [n] elements (oldest evicted first)". *)
Definition last_n {A} (n : nat) (l : list A) : list A :=
  skipn (List.length l - n) l.

Definition fifo (max_size : nat) (current incoming : list string) : list string :=
  match current with
  | [] => first_n max_size incoming
  | _ => last_n max_size (dedup_concat current incoming)
  end.

(** "preserving first-seen order, no duplicates": every name once, at
    the place of its first occurrence. *)
Fixpoint dedup_from (seen l : list string) : list string :=
  match l with
  | [] => []
  | x :: rest =>
      if Py.contains x seen then dedup_from seen rest
      else x :: dedup_from (x :: seen) rest
  end.

Definition dedup (l : list string) : list string := dedup_from [] l.

(** "the deduplicated concatenation of current and incoming", with no
    duplicates at all. *)
Definition deduplicated_concatenation (current incoming : list string)
  : list string :=
  dedup (current ++ incoming).

(** The FIFO policy over the deduplicated concatenation. *)
Definition fifo_deduplicated (max_size : nat) (current incoming : list string)
  : list string :=
  match current with
  | [] => first_n max_size incoming
  | _ => last_n max_size (deduplicated_concatenation current incoming)
  end.

End StateSpec.

(** ** core/exceptions.py *)

Module Exceptions.

(** What the code raises or lets through. The [SkillError] subclasses
    keep their constructor arguments; [message] gives the text handed to
    [Exception.__init__]. [OtherException] stands for any other
    [Exception] raised by code outside the core (an import or syntax
    error of a skill module, a factory that throws). [SystemExit] and
    [KeyboardInterrupt] derive from [BaseException] and not from
    [Exception]: a skill module or its factory may raise them too. *)
Inductive PyException : Type :=
| ValueError (msg : string)
| KeyError (key : string)
| TypeError (msg : string)
| SkillNotFoundError (skill_name : string)
| SkillLoadError (skill_name reason : string)
| SkillPermissionError (skill_name required_permission : string)
| OtherException (msg : string)
| SystemExit (code : string)
| KeyboardInterrupt.

Definition message (e : PyException) : string :=
  match e with
  | ValueError msg => msg
  | KeyError key => key
  | SkillNotFoundError skill_name => "Skill not found: " ++ skill_name
  | SkillLoadError skill_name reason =>
      "Failed to load skill '" ++ skill_name ++ "': " ++ reason
  | SkillPermissionError skill_name required_permission =>
      "Permission denied for skill '" ++ skill_name ++ "': requires '"
      ++ required_permission ++ "'"
  | OtherException msg => msg
  | TypeError msg => msg
  | SystemExit code => code
  | KeyboardInterrupt => ""
  end%string.

(** [isinstance(e, Exception)]: what [except Exception] catches. *)
Definition is_Exception (e : PyException) : bool :=
  match e with
  | SystemExit _ | KeyboardInterrupt => false
  | _ => true
  end.

(** [isinstance(e, KeyError)]: [SkillNotFoundError] derives from
    [SkillError] and from [KeyError]. *)
Definition is_KeyError (e : PyException) : bool :=
  match e with
  | KeyError _ | SkillNotFoundError _ => true
  | _ => false
  end.

(** [isinstance(e, SkillError)] *)
Definition is_SkillError (e : PyException) : bool :=
  match e with
  | SkillNotFoundError _ | SkillLoadError _ _ | SkillPermissionError _ _ => true
  | _ => false
  end.

(** [isinstance(e, SkillLoadError)] *)
Definition is_SkillLoadError (e : PyException) : bool :=
  match e with SkillLoadError _ _ => true | _ => false end.

(** Outcome of a call: a value, or a raised exception. *)
Inductive result (A : Type) : Type :=
| Ok (a : A)
| Raise (e : PyException).
Arguments Ok {A} a.
Arguments Raise {A} e.

Definition bind {A B} (m : result A) (f : A -> result B) : result B :=
  match m with
  | Ok a => f a
  | Raise e => Raise e
  end.

End Exceptions.
Export Exceptions.

Notation "x <- m ;; k" := (bind m (fun x => k))
  (at level 61, m at next level, right associativity).

(** ** An insertion-ordered [dict] with string keys *)

Module Dict.
Section Dict.
Context {V : Type}.

(** [d.keys()], [d.values()], in insertion order. *)
Definition keys (d : list (string * V)) : list string := map fst d.
Definition values (d : list (string * V)) : list V := map snd d.

(** [k in d] *)
Definition mem (k : string) (d : list (string * V)) : bool :=
  existsb (fun kv => String.eqb k (fst kv)) d.

(** [d[k]]: raises [KeyError] on a missing key. *)
Fixpoint getitem (k : string) (d : list (string * V)) : result V :=
  match d with
  | [] => Raise (KeyError k)
  | (k', v) :: d' => if String.eqb k k' then Ok v else getitem k d'
  end.

(** [d[k] = v]: an existing key keeps its position, a new key goes
    last. *)
Fixpoint setitem (k : string) (v : V) (d : list (string * V)) : list (string * V) :=
  match d with
  | [] => [(k, v)]
  | (k', v') :: d' =>
      if String.eqb k k' then (k', v) :: d' else (k', v') :: setitem k v d'
  end.

(** [del d[k]]: raises [KeyError] on a missing key. *)
Fixpoint delitem (k : string) (d : list (string * V)) : result (list (string * V)) :=
  match d with
  | [] => Raise (KeyError k)
  | (k', v') :: d' =>
      if String.eqb k k' then Ok d'
      else d'' <- delitem k d' ;; Ok ((k', v') :: d'')
  end.

End Dict.
End Dict.

(** ** core/base_skill.py *)

Module BaseSkillM.

Record SkillMetadata : Type := {
  name : string;
  description : string;
  version : string;
  tags : list string;
  visibility : string;
  dependencies : list string;
  required_permissions : list string;
  author : option string;
  enabled : bool
}.

(** A value where the code expects a [BaseTool]: a tool object, or
    Python's [None]. Tool objects are always truthy. *)
Inductive BaseTool : Type :=
| PyNone
| Tool (tool_name tool_description : string).

Definition tool_truthy (t : BaseTool) : bool :=
  match t with PyNone => false | Tool _ _ => true end.

(** A concrete subclass of the abstract [BaseSkill]: what its
    [metadata] property, [get_tools()] and [get_loader_tool()]
    return. *)
Record BaseSkill : Type := {
  metadata : SkillMetadata;
  get_tools : list BaseTool;
  get_loader_tool : BaseTool
}.

(** [BaseSkill.validate] *)
Definition validate (self : BaseSkill) : result bool :=
  if negb (Py.str_truthy (name (metadata self))) then
    Raise (ValueError "Skill name cannot be empty")
  else if negb (Py.str_truthy (description (metadata self))) then
    Raise (ValueError "Skill description cannot be empty")
  else if negb (Py.list_truthy (get_tools self)) then
    Raise (ValueError "Skill must provide at least one tool")
  else if negb (tool_truthy (get_loader_tool self)) then
    Raise (ValueError "Skill must provide a loader tool")
  else Ok true.

End BaseSkillM.
Export BaseSkillM.

(** ** core/registry.py *)

Module Registry.

(** The two dictionaries of a [SkillRegistry] instance. *)
Record SkillRegistry : Type := {
  _skills : list (string * BaseSkill);
  _metadata_cache : list (string * SkillMetadata)
}.

(** [SkillRegistry()] *)
Definition init : SkillRegistry :=
  {| _skills := []; _metadata_cache := [] |}.

(** [register]: [validate] may raise before anything is written; then
    the two item assignments follow each other. *)
Definition register (skill : BaseSkill) (self : SkillRegistry)
  : result unit * SkillRegistry :=
  match validate skill with
  | Raise e => (Raise e, self)
  | Ok _ =>
      let name := name (metadata skill) in
      let self1 :=
        {| _skills := Dict.setitem name skill (_skills self);
           _metadata_cache := _metadata_cache self |} in
      let self2 :=
        {| _skills := _skills self1;
           _metadata_cache :=
             Dict.setitem name (metadata skill) (_metadata_cache self1) |} in
      (Ok tt, self2)
  end.

(** [unregister]: two [del] statements guarded by [in self._skills]. *)
Definition unregister (skill_name : string) (self : SkillRegistry)
  : result unit * SkillRegistry :=
  if Dict.mem skill_name (_skills self) then
    match Dict.delitem skill_name (_skills self) with
    | Raise e => (Raise e, self)
    | Ok skills' =>
        let self1 :=
          {| _skills := skills'; _metadata_cache := _metadata_cache self |} in
        match Dict.delitem skill_name (_metadata_cache self1) with
        | Raise e => (Raise e, self1)
        | Ok cache' =>
            (Ok tt, {| _skills := _skills self1; _metadata_cache := cache' |})
        end
    end
  else (Ok tt, self).

Definition get (skill_name : string) (self : SkillRegistry) : result BaseSkill :=
  if negb (Dict.mem skill_name (_skills self)) then
    Raise (SkillNotFoundError skill_name)
  else Dict.getitem skill_name (_skills self).

Definition get_metadata (skill_name : string) (self : SkillRegistry)
  : result SkillMetadata :=
  if negb (Dict.mem skill_name (_metadata_cache self)) then
    Raise (SkillNotFoundError skill_name)
  else Dict.getitem skill_name (_metadata_cache self).

Definition list_skills (filter_fn : option (SkillMetadata -> bool))
    (self : SkillRegistry) : list string :=
  match filter_fn with
  | None => Dict.keys (_skills self)
  | Some f =>
      map fst (filter (fun name_meta => f (snd name_meta)) (_metadata_cache self))
  end.

(** The [for] loop of [get_all_loader_tools], with its accumulator. *)
Fixpoint loader_loop (self : SkillRegistry) (skill_names : list string)
    (loaders : list BaseTool) : result (list BaseTool) :=
  match skill_names with
  | [] => Ok loaders
  | name :: rest =>
      skill <- Dict.getitem name (_skills self) ;;
      if enabled (metadata skill)
      then loader_loop self rest (loaders ++ [get_loader_tool skill])
      else loader_loop self rest loaders
  end.

Definition get_all_loader_tools (filter_fn : option (SkillMetadata -> bool))
    (self : SkillRegistry) : result (list BaseTool) :=
  let skill_names := list_skills filter_fn self in
  loader_loop self skill_names [].

(** The [for] loop of [get_all_tools]. *)
Fixpoint all_tools_loop (self : SkillRegistry) (skill_name : list string)
    (all_tools : list BaseTool) : result (list BaseTool) :=
  match skill_name with
  | [] => Ok all_tools
  | name :: rest =>
      skill <- Dict.getitem name (_skills self) ;;
      if enabled (metadata skill)
      then all_tools_loop self rest
             ((all_tools ++ [get_loader_tool skill]) ++ get_tools skill)
      else all_tools_loop self rest all_tools
  end.

Definition get_all_tools (filter_fn : option (SkillMetadata -> bool))
    (self : SkillRegistry) : result (list BaseTool) :=
  let skill_name := list_skills filter_fn self in
  all_tools_loop self skill_name [].

(** The [for] loop of [get_tools_for_skills]. *)
Fixpoint unlocked_loop (self : SkillRegistry) (skill_names : list string)
    (tools : list BaseTool) : result (list BaseTool) :=
  match skill_names with
  | [] => Ok tools
  | name :: rest =>
      if Dict.mem name (_skills self) then
        skill <- Dict.getitem name (_skills self) ;;
        if enabled (metadata skill)
        then unlocked_loop self rest (tools ++ get_tools skill)
        else unlocked_loop self rest tools
      else unlocked_loop self rest tools
  end.

Definition get_tools_for_skills (skill_names : list string)
    (self : SkillRegistry) : result (list BaseTool) :=
  tools <- get_all_loader_tools None self ;;
  unlocked_loop self skill_names tools.

(** *** Discovery: the file system and the module loader

    A skill module file is described by what loading it does:
    [spec_from_file_location] gives no usable spec, [exec_module]
    raises, or a module object results; the module may or may not
    define [create_skill], which, called with the directory, raises or
    returns some object. *)

Inductive FactoryReturn : Type :=
| ReturnsSkill (skill : BaseSkill)   (* isinstance(skill, BaseSkill) *)
| ReturnsOther.                      (* any other object *)

Record PyModule : Type := {
  create_skill : option (string -> result FactoryReturn)
}.

Inductive SkillFile : Type :=
| NoModuleSpec
| ExecRaises (e : PyException)
| ExecOk (module : PyModule).

(** One entry of [skills_dir.iterdir()]. *)
Record DirEntry : Type := {
  entry_name : string;
  is_dir : bool;
  files : list (string * SkillFile)
}.

(** [(skill_path / filename)], when it [exists()]. *)
Definition file_at (skill_path : DirEntry) (filename : string) : option SkillFile :=
  match find (fun f => String.eqb filename (fst f)) (files skill_path) with
  | Some f => Some (snd f)
  | None => None
  end.

Definition _load_skill_from_file (skill_file : SkillFile) (skill_dir : DirEntry)
  : result BaseSkill :=
  match skill_file with
  | NoModuleSpec =>
      Raise (SkillLoadError (entry_name skill_dir) "Failed to load module spec")
  | ExecRaises e => Raise e
  | ExecOk module =>
      match create_skill module with
      | None =>
          Raise (SkillLoadError (entry_name skill_dir)
                   "模块必须定义create_skill（）函数")
      | Some factory =>
          skill <- factory (entry_name skill_dir) ;;
          match skill with
          | ReturnsOther =>
              Raise (SkillLoadError (entry_name skill_dir)
                       "create_skill（）必须返回BaseSkill实例")
          | ReturnsSkill skill => Ok skill
          end
      end
  end.

(** The [for] loop of [discover_and_load]. [except Exception] catches
    what the [try] block raises when it is an [Exception], and the loop
    goes on with the next entry; anything else ([SystemExit],
    [KeyboardInterrupt]) leaves the loop and the method, with the
    registry as it is at that point. *)
Fixpoint discover_loop (entries : list DirEntry) (module_name : string)
    (loaded_count : nat) (self : SkillRegistry) : result nat * SkillRegistry :=
  match entries with
  | [] => (Ok loaded_count, self)
  | skill_path :: rest =>
      if negb (is_dir skill_path) then
        discover_loop rest module_name loaded_count self
      else
        match file_at skill_path (module_name ++ ".py") with
        | None => discover_loop rest module_name loaded_count self
        | Some skills_file =>
            match _load_skill_from_file skills_file skill_path with
            | Raise e =>
                if is_Exception e
                then discover_loop rest module_name loaded_count self
                else (Raise e, self)
            | Ok skill =>
                match register skill self with
                | (Ok _, self') =>
                    discover_loop rest module_name (loaded_count + 1) self'
                | (Raise e, self') =>
                    if is_Exception e
                    then discover_loop rest module_name loaded_count self'
                    else (Raise e, self')
                end
            end
        end
  end.

(** [discover_and_load]; [skills_dir] is [None] when the directory
    does not exist, else its entries in [iterdir()] order. The outcome
    is the returned count, or what escaped the [try]. *)
Definition discover_and_load (skills_dir : option (list DirEntry))
    (module_name : string) (self : SkillRegistry) : result nat * SkillRegistry :=
  match skills_dir with
  | None => (Ok 0, self)
  | Some entries => discover_loop entries module_name 0 self
  end.

(** *** Search *)

(** [any(tag in meta.tags for tag in tags)] *)
Definition any_tag_in (tags meta_tags : list string) : bool :=
  existsb (fun tag => Py.contains tag meta_tags) tags.

(** [str.lower()] belongs to Python and not to this repository, and its
    case tables cover all of Unicode: [search] takes it as the parameter
    [lower]. On ASCII text it is [Py.lower]. *)
Section Search.
Variable lower : string -> string.

(** Does the body of the [search] loop reach [continue] for [meta]?
    An argument left at [None], like an empty one, is false in an
    [if]. *)
Definition search_skips (query : string) (tags : option (list string))
    (visibility : option string) (meta : SkillMetadata) : bool :=
  if Py.str_truthy query
     && (negb (Py.str_in (lower query) (lower (name meta)))
         && negb (Py.str_in (lower query) (lower (description meta))))
  then true
  else if match tags with
          | Some tags =>
              Py.list_truthy tags
              && negb (any_tag_in tags (BaseSkillM.tags meta))
          | None => false
          end
  then true
  else if match visibility with
          | Some visibility =>
              Py.str_truthy visibility
              && negb (String.eqb (BaseSkillM.visibility meta) visibility)
          | None => false
          end
  then true
  else false.

Fixpoint search_loop (metas : list SkillMetadata) (query : string)
    (tags : option (list string)) (visibility : option string)
    (results : list SkillMetadata) : list SkillMetadata :=
  match metas with
  | [] => results
  | meta :: rest =>
      if search_skips query tags visibility meta
      then search_loop rest query tags visibility results
      else search_loop rest query tags visibility (results ++ [meta])
  end.

Definition search (query : string) (tags : option (list string))
    (visibility : option string) (self : SkillRegistry) : list SkillMetadata :=
  search_loop (Dict.values (_metadata_cache self)) query tags visibility [].

End Search.

(** [len(registry)], [name in registry] *)
Definition len (self : SkillRegistry) : nat := List.length (_skills self).
Definition contains (skill_name : string) (self : SkillRegistry) : bool :=
  Dict.mem skill_name (_skills self).

End Registry.
Export Registry.

(** ** middleware/skill_middleware.py *)

Module SkillMiddlewareM.

(** A value stored under [skills_loaded]: an iterable of names (a list
    or a tuple of strings), [None], or an object that cannot be iterated,
    given by the name of its type. *)
Inductive PyValue : Type :=
| VNames (names : list string)
| VNone
| VNotIterable (type_name : string).

(** The session state seen through [request.state]: a dict or an
    object, with or without a [skills_loaded] entry. *)
Record AgentState : Type := {
  skills_loaded : option PyValue
}.

(** A [ModelRequest]: the state (absent or [None] is [None] here), the
    tools offered, and everything else the request carries. *)
Record ModelRequest : Type := {
  state : option AgentState;
  tools : list BaseTool;
  messages : list string
}.

(** [request.override(tools=...)] *)
Definition override (request : ModelRequest) (tools : list BaseTool) : ModelRequest :=
  {| state := state request; tools := tools; messages := messages request |}.

Record SkillMiddleware : Type := {
  registry : SkillRegistry;
  verbose : bool;
  filter_fn : option (BaseTool -> bool)
}.

(** [SkillMiddleware(skill_registry, verbose, filter_fn)] *)
Definition init (skill_registry : SkillRegistry) (verbose : bool)
    (filter_fn : option (BaseTool -> bool)) : SkillMiddleware :=
  {| registry := skill_registry; verbose := verbose; filter_fn := filter_fn |}.

(** [registry.get_tools_for_skills(v)] for the value [v] the state
    holds: the method assembles the loaders first, and its
    [for name in skill_names] raises [TypeError] when [v] cannot be
    iterated. *)
Definition get_tools_for_value (v : PyValue) (reg : SkillRegistry)
  : result (list BaseTool) :=
  match v with
  | VNames names => get_tools_for_skills names reg
  | VNone =>
      tools <- get_all_loader_tools None reg ;;
      Raise (TypeError "'NoneType' object is not iterable")
  | VNotIterable type_name =>
      tools <- get_all_loader_tools None reg ;;
      Raise (TypeError ("'" ++ type_name ++ "' object is not iterable"))
  end.

Definition _get_filtered_tools (self : SkillMiddleware)
    (skills_loaded : PyValue) : result (list BaseTool) :=
  tools <- get_tools_for_value skills_loaded (registry self) ;;
  Ok tools.

(** The [skills_loaded] read at the head of both call wrappers: the
    value stored in the state, and the empty list only when there is no
    state or no such entry. *)
Definition read_skills_loaded (request : ModelRequest) : PyValue :=
  match state request with
  | Some st =>
      match skills_loaded st with
      | Some v => v
      | None => VNames []
      end
  | None => VNames []
  end.

Section Handler.
Context {ModelResponse : Type}.

(** [wrap_model_call]. With [verbose] set the code also logs the list
    read and the names of the tools found; the log computes no value the
    method uses, and is left out. *)
Definition wrap_model_call (self : SkillMiddleware) (request : ModelRequest)
    (handler : ModelRequest -> result ModelResponse) : result ModelResponse :=
  let skills_loaded := read_skills_loaded request in
  relevant_tools <- _get_filtered_tools self skills_loaded ;;
  let filtered_request := override request relevant_tools in
  handler filtered_request.

(** The asynchronous wrapper has the same body; awaiting the handler
    does not change the value it yields. *)
Definition awrap_model_call (self : SkillMiddleware) (request : ModelRequest)
    (handler : ModelRequest -> result ModelResponse) : result ModelResponse :=
  let skills_loaded := read_skills_loaded request in
  relevant_tools <- _get_filtered_tools self skills_loaded ;;
  let filtered_request := override request relevant_tools in
  handler filtered_request.
End Handler.

End SkillMiddlewareM.

(** ** middleware/skill_middleware_simple.py *)

Module SimpleSkillMiddlewareM.

Record SimpleSkillMiddleware : Type := {
  registry : SkillRegistry;
  verbose : bool;
  filter_fn : option (BaseTool -> bool)
}.

Definition init (skill_registry : SkillRegistry) (verbose : bool)
    (filter_fn : option (BaseTool -> bool)) : SimpleSkillMiddleware :=
  {| registry := skill_registry; verbose := verbose; filter_fn := filter_fn |}.

Definition get_tools_for_state (self : SimpleSkillMiddleware)
    (skills_loaded : list string) : result (list BaseTool) :=
  tools <- get_tools_for_skills skills_loaded (registry self) ;;
  let tools :=
    match filter_fn self with
    | Some f => filter f tools
    | None => tools
    end in
  Ok tools.

End SimpleSkillMiddlewareM.

(** ** Sequences of registry operations *)

Inductive RegistryOp : Type :=
| OpRegister (skill : BaseSkill)
| OpUnregister (skill_name : string).

(** The registry after one call, whether it returned or raised. *)
Definition apply_op (op : RegistryOp) (self : SkillRegistry) : SkillRegistry :=
  match op with
  | OpRegister skill => snd (register skill self)
  | OpUnregister skill_name => snd (unregister skill_name self)
  end.

(** The registries seen after each call of a sequence, in order. *)
Fixpoint states_after (ops : list RegistryOp) (self : SkillRegistry)
  : list SkillRegistry :=
  match ops with
  | [] => []
  | op :: rest => apply_op op self :: states_after rest (apply_op op self)
  end.

(** Both dictionaries have the same keys, in the same order. *)
Definition same_keys (self : SkillRegistry) : Prop :=
  Dict.keys (_skills self) = Dict.keys (_metadata_cache self).

(** ** Sample data *)

Module Samples.

Definition meta (n d : string) (tg : list string) (en : bool) : SkillMetadata :=
  {| name := n; description := d; version := "1.0.0"; tags := tg;
     visibility := "public"; dependencies := []; required_permissions := [];
     author := None; enabled := en |}.

(** Capability [X]: one loader and two operations. *)
Definition X_loader : BaseTool := Tool "load_X" "Load X.".
Definition X_op1 : BaseTool := Tool "x_one" "First operation of X.".
Definition X_op2 : BaseTool := Tool "x_two" "Second operation of X.".
Definition X : BaseSkill :=
  {| metadata := meta "X" "Capability X" [] true;
     get_tools := [X_op1; X_op2];
     get_loader_tool := X_loader |}.

Definition reg_X : SkillRegistry := snd (register X Registry.init).

Definition simple (n : string) (tg : list string) : BaseSkill :=
  {| metadata := meta n (n ++ " skill") tg true;
     get_tools := [Tool (n ++ "_tool") "A tool."];
     get_loader_tool := Tool ("load_" ++ n) "A loader." |}.

Definition alpha : BaseSkill := simple "alpha" ["math"].
Definition beta : BaseSkill := simple "beta" ["text"].
Definition reg_alpha_beta : SkillRegistry :=
  snd (register beta (snd (register alpha Registry.init))).

(** A skill whose metadata has an empty name. *)
Definition nameless : BaseSkill :=
  {| metadata := meta "" "No name" [] true;
     get_tools := [X_op1];
     get_loader_tool := X_loader |}.

(** Three candidate subdirectories; the factory of the second throws. *)
Definition module_of (s : BaseSkill) : SkillFile :=
  ExecOk {| create_skill := Some (fun _ => Ok (ReturnsSkill s)) |}.
Definition throwing_module : SkillFile :=
  ExecOk {| create_skill := Some (fun _ => Raise (OtherException "boom")) |}.
Definition dir (n : string) (f : SkillFile) : DirEntry :=
  {| entry_name := n; is_dir := true; files := [("skill.py", f)] |}.
Definition three_dirs : list DirEntry :=
  [dir "alpha" (module_of alpha);
   dir "broken" throwing_module;
   dir "beta" (module_of beta)].


(** A skill whose name and description hold capital letters. *)
Definition Gamma : BaseSkill :=
  {| metadata := meta "Gamma" "Third Greek Letter" ["math"] true;
     get_tools := [Tool "gamma_tool" "A tool."];
     get_loader_tool := Tool "load_gamma" "A loader." |}.
Definition reg_Gamma : SkillRegistry := snd (register Gamma Registry.init).

End Samples.

(** [n] pairwise different names: ["a"], ["aa"], ["aaa"], ... *)
Fixpoint a_string (k : nat) : string :=
  match k with
  | 0 => EmptyString
  | S k' => String "a" (a_string k')
  end.

Definition distinct_names (n : nat) : list string := map a_string (seq 1 n).

(** ** Ways a candidate subdirectory fails to load *)


(** The skill a subdirectory contributes: it is a directory, holds the
    module file, the file loads, and the skill passes [validate]. *)
Definition loaded_skill (module_name : string) (skill_path : DirEntry)
  : option BaseSkill :=
  if is_dir skill_path then
    match file_at skill_path (module_name ++ ".py") with
    | Some skills_file =>
        match _load_skill_from_file skills_file skill_path with
        | Ok skill =>
            match validate skill with
            | Ok _ => Some skill
            | Raise _ => None
            end
        | Raise _ => None
        end
    | None => None
    end
  else None.

Definition registers_ok (module_name : string) (skill_path : DirEntry) : bool :=
  match loaded_skill module_name skill_path with
  | Some _ => true
  | None => false
  end.

(** What loading a subdirectory raises past [except Exception], if
    anything: a raised value that is not an [Exception]. *)
Definition abort_of (module_name : string) (skill_path : DirEntry)
  : option PyException :=
  if is_dir skill_path then
    match file_at skill_path (module_name ++ ".py") with
    | Some skills_file =>
        match _load_skill_from_file skills_file skill_path with
        | Raise e => if is_Exception e then None else Some e
        | Ok _ => None
        end
    | None => None
    end
  else None.

(** What the first subdirectory to do so raises past [except Exception]. *)
Fixpoint first_abort (module_name : string) (entries : list DirEntry)
  : option PyException :=
  match entries with
  | [] => None
  | entry :: rest =>
      match abort_of module_name entry with
      | Some e => Some e
      | None => first_abort module_name rest
      end
  end.

(** The subdirectories the loop gets through: those before the first
    one that raises past [except Exception]. *)
Fixpoint processed (module_name : string) (entries : list DirEntry)
  : list DirEntry :=
  match entries with
  | [] => []
  | entry :: rest =>
      match abort_of module_name entry with
      | Some _ => []
      | None => entry :: processed module_name rest
      end
  end.

(** ** Registries built by calls *)

(** The registry after a whole sequence of calls. *)
Definition run (ops : list RegistryOp) (self : SkillRegistry) : SkillRegistry :=
  fold_left (fun s op => apply_op op s) ops self.

(** A registry obtained from [SkillRegistry()] by [register] and
    [unregister] calls. *)
Definition reachable (self : SkillRegistry) : Prop :=
  exists ops, self = run ops Registry.init.

(** What a Python [dict] guarantees and what [register] establishes: the
    keys are pairwise different, the cache holds the metadata of the
    skill stored under the same key, and every stored skill is valid
    and stored under its own name. *)
Definition coherent (self : SkillRegistry) : Prop :=
  NoDup (Dict.keys (_skills self))
  /\ _metadata_cache self
     = map (fun kv => (fst kv, metadata (snd kv))) (_skills self)
  /\ Forall (fun kv => fst kv = name (metadata (snd kv))
                       /\ validate (snd kv) = Ok true)
            (_skills self).

(** ** utils/helpers.py: [validate_skill_structure] *)

Module Helpers.

(** The loop over [required_files]. *)
Fixpoint required_loop (skill_path : DirEntry) (required_files : list string)
    (issues : list string) : list string :=
  match required_files with
  | [] => issues
  | file_name :: rest =>
      match file_at skill_path file_name with
      | None =>
          required_loop skill_path rest
            (issues ++ ["Missing required file: " ++ file_name])
      | Some _ => required_loop skill_path rest issues
      end
  end%string.

(** The loop over [optional_files]. *)
Fixpoint optional_loop (skill_path : DirEntry) (optional_files : list string)
    (issues : list string) : list string :=
  match optional_files with
  | [] => issues
  | file_name :: rest =>
      match file_at skill_path file_name with
      | None =>
          optional_loop skill_path rest
            (issues ++ ["Warning: Optional file not found: " ++ file_name])
      | Some _ => optional_loop skill_path rest issues
      end
  end%string.

(** [validate_skill_structure(skill_dir)]: [skill_dir] is the text of
    [Path(skill_dir)], [on_disk] what lies there ([None] when nothing
    exists). *)
Definition validate_skill_structure (skill_dir : string)
    (on_disk : option DirEntry) : list string :=
  match on_disk with
  | None => ["Directory does not exist: " ++ skill_dir]%string
  | Some skill_path =>
      if negb (is_dir skill_path) then ["Not a directory: " ++ skill_dir]%string
      else
        let issues := required_loop skill_path ["skill.py"%string] [] in
        optional_loop skill_path
          ["instructions.md"%string; "config.yaml"%string] issues
  end.

End Helpers.

(** ** config/setting.py and agent_factory.py: the state mode *)

Module Config.

(** The check of [SkillSystemConfig.__post_init__] on [state_mode]. *)
Definition post_init_state_mode (state_mode : string) : result unit :=
  let valid_modes := ["replace"; "accumulate"; "fifo"]%string in
  if negb (Py.contains state_mode valid_modes) then
    Raise (ValueError ("Invalid state_mode: " ++ state_mode
                       ++ ". Must be one of ['replace', 'accumulate', 'fifo']"))
  else Ok tt.

(** The state schemas of [core/state.py]. *)
Inductive StateSchema : Type :=
| SkillState
| SkillStateAccumulative
| SkillStateFIFO.

(** The reducer annotated on [skills_loaded] in each schema. *)
Definition schema_reducer (schema : StateSchema)
  : list string -> list string -> list string :=
  match schema with
  | SkillState => State.skill_list_reducer
  | SkillStateAccumulative => State.skill_list_accumulator
  | SkillStateFIFO => State.skill_list_fifo 3
  end.

(** Step 7 of [create_skill_agent]: the schema for [config.state_mode]. *)
Definition select_state_schema (state_mode : string) : result StateSchema :=
  if String.eqb state_mode "replace" then Ok SkillState
  else if String.eqb state_mode "accumulate" then Ok SkillStateAccumulative
  else if String.eqb state_mode "fifo" then Ok SkillStateFIFO
  else Raise (ValueError ("Invalid state_mode: " ++ state_mode)).

(** Steps 4 and 5 of [create_skill_agent]: the metadata filters. *)
Definition visibility_filter (filter_by_visibility : bool)
    (allowed_visibilities : list string) (meta : SkillMetadata) : bool :=
  if negb filter_by_visibility then true
  else Py.contains (visibility meta) allowed_visibilities.

Definition combined_filter (filter_by_visibility : bool)
    (allowed_visibilities : list string)
    (filter_fn : option (SkillMetadata -> bool)) : SkillMetadata -> bool :=
  match filter_fn with
  | Some f =>
      fun meta =>
        visibility_filter filter_by_visibility allowed_visibilities meta
        && f meta
  | None => visibility_filter filter_by_visibility allowed_visibilities
  end.

End Config.

(** ** What one registered skill contributes to an assembled list *)

(** The loader of an enabled skill; nothing for a disabled one. *)
Definition entry_loader (skill : BaseSkill) : list BaseTool :=
  if enabled (metadata skill) then [get_loader_tool skill] else [].

(** The tools of an enabled skill. *)
Definition entry_tools (skill : BaseSkill) : list BaseTool :=
  if enabled (metadata skill) then get_tools skill else [].

(** The loader of an enabled skill followed by its tools. *)
Definition entry_all (skill : BaseSkill) : list BaseTool :=
  if enabled (metadata skill) then get_loader_tool skill :: get_tools skill
  else [].

(** An absent [filter_fn] lets every metadata pass. *)
Definition passes (filter_fn : option (SkillMetadata -> bool))
    (meta : SkillMetadata) : bool :=
  match filter_fn with
  | Some f => f meta
  | None => true
  end.

(** The contribution of the skill stored under [n], if any. *)
Definition of_name (g : BaseSkill -> list BaseTool) (self : SkillRegistry)
    (n : string) : list BaseTool :=
  match Dict.getitem n (_skills self) with
  | Ok skill => g skill
  | Raise _ => []
  end.

(** The skill named [k] that the last of the subdirectories contributing
    such a skill contributes. *)
Fixpoint latest_loaded (module_name : string) (entries : list DirEntry)
    (k : string) : option BaseSkill :=
  match entries with
  | [] => None
  | entry :: rest =>
      match latest_loaded module_name rest k with
      | Some skill => Some skill
      | None =>
          match loaded_skill module_name entry with
          | Some skill =>
              if String.eqb k (name (metadata skill)) then Some skill else None
          | None => None
          end
      end
  end.

(* ================================================================== *)
(** * Part II: properties                                              *)
(* ================================================================== *)

(** ** Python helpers *)

Lemma contains_true_iff (s : string) (l : list string) :
  Py.contains s l = true <-> In s l.
Proof.
  unfold Py.contains. rewrite existsb_exists. split.
  - intros [x [Hx Heq]]. apply String.eqb_eq in Heq. now subst.
  - intros H. exists s. split; [assumption | apply String.eqb_refl].
Qed.

Lemma contains_false_iff (s : string) (l : list string) :
  Py.contains s l = false <-> ~ In s l.
Proof.
  rewrite <- contains_true_iff. destruct (Py.contains s l); split; intros H;
    try discriminate; try reflexivity; try (intros Hc; discriminate).
  exfalso. now apply H.
Qed.

Lemma list_truthy_false_iff {A} (l : list A) :
  Py.list_truthy l = false <-> l = [].
Proof. destruct l; simpl; split; intros H; try reflexivity; discriminate. Qed.

(** A positive stop bound keeps the first [stop] elements. *)
Lemma slice_to_nonneg {A} (l : list A) (stop : Z) :
  (0 <= stop)%Z -> Py.slice_to l stop = firstn (Z.to_nat stop) l.
Proof.
  intros Hs. unfold Py.slice_to, Py.adjust_index.
  destruct (Z.ltb_spec stop 0) as [Hneg | _]; [lia |].
  destruct (Z.le_gt_cases stop (Z.of_nat (List.length l))) as [Hle | Hgt].
  - now rewrite Z.min_l by assumption.
  - rewrite Z.min_r by lia. rewrite Nat2Z.id.
    rewrite firstn_all. symmetry. apply firstn_all2. lia.
Qed.

(** A negative start bound [-k] keeps the last [k] elements. *)
Lemma slice_from_neg {A} (l : list A) (k : Z) :
  (0 < k)%Z -> Py.slice_from l (- k) = skipn (List.length l - Z.to_nat k) l.
Proof.
  intros Hk. unfold Py.slice_from, Py.adjust_index.
  destruct (Z.ltb_spec (- k) 0) as [_ | Hpos]; [| lia].
  f_equal. lia.
Qed.

(** [l[-0:]] is [l[0:]]: the whole list. *)
Lemma slice_from_zero {A} (l : list A) : Py.slice_from l (- 0) = l.
Proof.
  unfold Py.slice_from, Py.adjust_index. simpl.
  destruct (List.length l); reflexivity.
Qed.

Lemma slice_to_zero {A} (l : list A) : Py.slice_to l 0 = [].
Proof.
  unfold Py.slice_to, Py.adjust_index. simpl.
  destruct (List.length l); reflexivity.
Qed.

(** ** Reducers *)

Lemma combined_is_dedup_concat (current new : list string) :
  current ++ filter (fun s => negb (Py.contains s current)) new
  = StateSpec.dedup_concat current new.
Proof.
  unfold StateSpec.dedup_concat. f_equal. apply filter_ext. intros s.
  destruct (in_dec string_dec s current) as [Hin | Hnin].
  - apply contains_true_iff in Hin. now rewrite Hin.
  - apply contains_false_iff in Hnin. now rewrite Hnin.
Qed.

Lemma accumulator_nonempty (c : string) (cs new : list string) :
  State.skill_list_accumulator (c :: cs) new
  = StateSpec.dedup_concat (c :: cs) new.
Proof.
  unfold State.skill_list_accumulator. cbv [Py.list_truthy negb].
  apply combined_is_dedup_concat.
Qed.

Lemma length_last_n {A} (n : nat) (l : list A) :
  List.length (StateSpec.last_n n l) <= n.
Proof. unfold StateSpec.last_n. rewrite length_skipn. lia. Qed.

Lemma length_first_n {A} (n : nat) (l : list A) :
  List.length (StateSpec.first_n n l) <= n.
Proof. unfold StateSpec.first_n. apply firstn_le_length. Qed.

Lemma fifo_spec_length (n : nat) (current incoming : list string) :
  List.length (StateSpec.fifo n current incoming) <= n.
Proof.
  unfold StateSpec.fifo. destruct current.
  - apply length_first_n.
  - apply length_last_n.
Qed.

(** For [max_size >= 1] the two slices of [skill_list_fifo] are the first
    and the last [max_size] elements: of [incoming], and of [current]
    followed by the elements of [incoming] not in [current]. *)
Lemma fifo_is_spec (max_size : Z) (current incoming : list string) :
  (1 <= max_size)%Z ->
  State.skill_list_fifo max_size current incoming
  = StateSpec.fifo (Z.to_nat max_size) current incoming.
Proof.
  intros Hmax. unfold State.skill_list_fifo, StateSpec.fifo.
  destruct current as [| c cs].
  - cbv [Py.list_truthy negb]. apply slice_to_nonneg. lia.
  - cbv [Py.list_truthy negb]. rewrite combined_is_dedup_concat.
    apply slice_from_neg. lia.
Qed.

Lemma dedup_from_ext (seen1 seen2 l : list string) :
  (forall x, Py.contains x seen1 = Py.contains x seen2) ->
  StateSpec.dedup_from seen1 l = StateSpec.dedup_from seen2 l.
Proof.
  revert seen1 seen2. induction l as [| y l IH]; intros seen1 seen2 H; simpl.
  - reflexivity.
  - rewrite <- (H y). destruct (Py.contains y seen1); [now apply IH |].
    f_equal. apply IH. intros x. unfold Py.contains. simpl.
    f_equal. apply H.
Qed.

Lemma dedup_from_NoDup (seen l : list string) :
  NoDup l ->
  StateSpec.dedup_from seen l = filter (fun s => negb (Py.contains s seen)) l.
Proof.
  revert seen. induction l as [| y l IH]; intros seen Hnd; simpl.
  - reflexivity.
  - inversion Hnd as [| ? ? Hnin Hnd']; subst.
    destruct (Py.contains y seen) eqn:Hy; simpl; [now apply IH |].
    f_equal. rewrite (IH _ Hnd'). apply filter_ext_in. intros x Hx.
    unfold Py.contains at 1. simpl.
    destruct (String.eqb x y) eqn:Hxy; [| reflexivity].
    apply String.eqb_eq in Hxy. subst x. contradiction.
Qed.

Lemma dedup_from_app (seen l1 l2 : list string) :
  StateSpec.dedup_from seen (l1 ++ l2)
  = StateSpec.dedup_from seen l1 ++ StateSpec.dedup_from (l1 ++ seen) l2.
Proof.
  revert seen. induction l1 as [| y l1 IH]; intros seen; simpl.
  - reflexivity.
  - destruct (Py.contains y seen) eqn:Hy.
    + rewrite IH. f_equal. apply dedup_from_ext. intros x.
      unfold Py.contains. simpl. rewrite !existsb_app.
      destruct (String.eqb x y) eqn:Hxy; [| reflexivity].
      apply String.eqb_eq in Hxy. subst x. simpl.
      unfold Py.contains in Hy. rewrite Hy. now rewrite orb_true_r.
    + rewrite IH. simpl. do 2 f_equal. apply dedup_from_ext. intros x.
      unfold Py.contains. simpl. rewrite !existsb_app. simpl.
      destruct (String.eqb x y); [now rewrite orb_true_r |]. reflexivity.
Qed.

(** When neither list repeats a name, [current] followed by the new names
    of [incoming] is the deduplicated concatenation. *)
Lemma dedup_concat_NoDup (current incoming : list string) :
  NoDup current -> NoDup incoming ->
  StateSpec.dedup_concat current incoming
  = StateSpec.deduplicated_concatenation current incoming.
Proof.
  intros Hc Hi. unfold StateSpec.deduplicated_concatenation, StateSpec.dedup.
  rewrite dedup_from_app, (dedup_from_NoDup [] current Hc),
    (dedup_from_NoDup (current ++ []) incoming Hi), app_nil_r.
  rewrite <- combined_is_dedup_concat. f_equal.
  clear. induction current as [| c cs IH]; [reflexivity |].
  simpl. f_equal. exact IH.
Qed.

(** On lists without repeated names the FIFO reducer is the policy over
    the deduplicated concatenation, for every [max_size >= 1]. *)
Lemma fifo_is_fifo_deduplicated (max_size : Z) (current incoming : list string) :
  (1 <= max_size)%Z -> NoDup current -> NoDup incoming ->
  State.skill_list_fifo max_size current incoming
  = StateSpec.fifo_deduplicated (Z.to_nat max_size) current incoming.
Proof.
  intros Hmax Hc Hi. rewrite (fifo_is_spec _ _ _ Hmax).
  unfold StateSpec.fifo, StateSpec.fifo_deduplicated.
  destruct current as [| c cs]; [reflexivity |].
  now rewrite dedup_concat_NoDup.
Qed.

(** For [max_size >= 1] the result is never longer than [max_size]. *)
Lemma fifo_length (max_size : Z) (current incoming : list string) :
  (1 <= max_size)%Z ->
  (Z.of_nat (List.length (State.skill_list_fifo max_size current incoming))
   <= max_size)%Z.
Proof.
  intros Hmax. rewrite (fifo_is_spec _ _ _ Hmax).
  pose proof (fifo_spec_length (Z.to_nat max_size) current incoming). lia.
Qed.

(** C6. The reducer made by [skill_list_fifo] does not return the last
    [max_size] elements of the deduplicated concatenation when
    [incoming] repeats a name that [current] lacks: with [max_size = 2],
    [current = ["a"]] and [incoming = ["b","b"]] the deduplicated
    concatenation is [["a","b"]], whose last two elements are
    [["a","b"]], and the reducer returns [["b","b"]]. The length bound
    and [fifo(2)(["a","b"], ["c"]) = ["b","c"]] hold. *)
Theorem C6_fifo_is_not_last_of_deduplicated :
  State.skill_list_fifo 2 ["a"] ["b"; "b"] = ["b"; "b"]
  /\ StateSpec.deduplicated_concatenation ["a"] ["b"; "b"] = ["a"; "b"]
  /\ StateSpec.fifo_deduplicated 2 ["a"] ["b"; "b"] = ["a"; "b"]
  /\ State.skill_list_fifo 2 ["a"] ["b"; "b"]
     <> StateSpec.fifo_deduplicated 2 ["a"] ["b"; "b"]
  /\ ~ NoDup (State.skill_list_fifo 2 ["a"] ["b"; "b"])
  /\ State.skill_list_fifo 2 ["a"; "b"] ["c"] = ["b"; "c"].
Proof.
  repeat split; try reflexivity.
  - discriminate.
  - intros H. inversion H as [| ? ? Hb _]; subst. apply Hb. now left.
Qed.

(** Without repeated names in either argument, accumulation yields none. *)
Lemma accumulator_NoDup (current new : list string) :
  NoDup current -> NoDup new -> NoDup (State.skill_list_accumulator current new).
Proof.
  intros Hc Hn. unfold State.skill_list_accumulator.
  destruct current as [| c cs]; [exact Hn |].
  cbv [Py.list_truthy negb]. rewrite combined_is_dedup_concat.
  unfold StateSpec.dedup_concat. apply NoDup_app.
  - exact Hc.
  - now apply NoDup_filter.
  - intros y Hy Hin. apply filter_In in Hin. destruct Hin as [_ Hin].
    destruct (in_dec string_dec y (c :: cs)); [discriminate | contradiction].
Qed.

(** C7. The accumulate and FIFO reducers return a list with a repeated
    name when [incoming] repeats a name that [current] lacks:
    on [current = ["a"]], [incoming = ["b","b"]] both return
    [["a","b","b"]]. *)
Theorem C7_reducers_keep_incoming_duplicates :
  State.skill_list_accumulator ["a"] ["b"; "b"] = ["a"; "b"; "b"]
  /\ ~ NoDup (State.skill_list_accumulator ["a"] ["b"; "b"])
  /\ State.skill_list_fifo 3 ["a"] ["b"; "b"] = ["a"; "b"; "b"]
  /\ ~ NoDup (State.skill_list_fifo 3 ["a"] ["b"; "b"]).
Proof.
  assert (Hdup : ~ NoDup ["a"; "b"; "b"]).
  { intros H. inversion H as [| ? ? _ H1]; subst.
    inversion H1 as [| ? ? Hb _]; subst. apply Hb. now left. }
  repeat split; try reflexivity; exact Hdup.
Qed.

Lemma a_string_length (k : nat) : String.length (a_string k) = k.
Proof. induction k; simpl; congruence. Qed.

Lemma distinct_names_NoDup (n : nat) : NoDup (distinct_names n).
Proof.
  unfold distinct_names. apply Injective_map_NoDup.
  - intros j k Hjk. apply (f_equal String.length) in Hjk.
    now rewrite !a_string_length in Hjk.
  - apply seq_NoDup.
Qed.

(** C9. [skill_list_fifo] accepts [max_skills = 0]: the reducer then
    returns the empty list when [current] is empty, and the whole of
    [current] followed by the new names of [incoming] when [current] is
    not empty, so that no bound on the length of its result exists. *)
Theorem C9_fifo_zero_keeps_everything :
  (forall incoming, State.skill_list_fifo 0 [] incoming = [])
  /\ (forall c cs incoming,
        State.skill_list_fifo 0 (c :: cs) incoming
        = StateSpec.dedup_concat (c :: cs) incoming)
  /\ (forall bound, exists current incoming,
        NoDup current
        /\ bound < List.length (State.skill_list_fifo 0 current incoming)).
Proof.
  assert (Hne : forall c cs incoming,
             State.skill_list_fifo 0 (c :: cs) incoming
             = StateSpec.dedup_concat (c :: cs) incoming).
  { intros c cs incoming. unfold State.skill_list_fifo.
    cbv [Py.list_truthy negb]. rewrite combined_is_dedup_concat.
    apply slice_from_zero. }
  split; [| split].
  - intros incoming. unfold State.skill_list_fifo. cbv [Py.list_truthy negb].
    apply slice_to_zero.
  - exact Hne.
  - intros bound. exists (distinct_names (S bound)), [].
    split; [apply distinct_names_NoDup |].
    unfold distinct_names. simpl seq. simpl map. rewrite Hne.
    unfold StateSpec.dedup_concat. simpl filter. rewrite app_nil_r.
    simpl List.length. rewrite length_map, length_seq. lia.
Qed.

(** ** Dictionaries *)

Lemma mem_keys {V} (k : string) (d : list (string * V)) :
  Dict.mem k d = Py.contains k (Dict.keys d).
Proof.
  unfold Dict.mem, Py.contains, Dict.keys. induction d as [| [k' v] d IH]; simpl.
  - reflexivity.
  - now rewrite IH.
Qed.

Lemma mem_getitem {V} (k : string) (d : list (string * V)) :
  Dict.mem k d = true -> exists v, Dict.getitem k d = Ok v.
Proof.
  unfold Dict.mem. induction d as [| [k' v] d IH]; simpl.
  - discriminate.
  - destruct (String.eqb k k'); simpl.
    + intros _. now exists v.
    + exact IH.
Qed.

Lemma getitem_mem {V} (k : string) (d : list (string * V)) (v : V) :
  Dict.getitem k d = Ok v -> Dict.mem k d = true.
Proof.
  unfold Dict.mem. induction d as [| [k' v'] d IH]; simpl.
  - discriminate.
  - destruct (String.eqb k k'); simpl; [reflexivity | exact IH].
Qed.

Lemma setitem_keys {V W} (k : string) (v : V) (w : W)
    (d : list (string * V)) (c : list (string * W)) :
  Dict.keys d = Dict.keys c ->
  Dict.keys (Dict.setitem k v d) = Dict.keys (Dict.setitem k w c).
Proof.
  revert c. induction d as [| [k1 v1] d IH]; intros [| [k2 w2] c] Hk;
    simpl in Hk; try discriminate.
  - reflexivity.
  - injection Hk as Hhd Htl. subst k2. simpl.
    destruct (String.eqb k k1); simpl.
    + now rewrite Htl.
    + f_equal. now apply IH.
Qed.

Lemma setitem_mem {V} (k k' : string) (v : V) (d : list (string * V)) :
  Dict.mem k' (Dict.setitem k v d) = (String.eqb k' k || Dict.mem k' d)%bool.
Proof.
  unfold Dict.mem. induction d as [| [k1 v1] d IH]; simpl.
  - now rewrite orb_false_r.
  - destruct (String.eqb k k1) eqn:Hk; simpl.
    + apply String.eqb_eq in Hk. subst k1.
      now destruct (String.eqb k' k).
    + rewrite IH. destruct (String.eqb k' k), (String.eqb k' k1); reflexivity.
Qed.

Lemma delitem_keys {V W} (k : string)
    (d d' : list (string * V)) (c : list (string * W)) :
  Dict.keys d = Dict.keys c ->
  Dict.delitem k d = Ok d' ->
  exists c', Dict.delitem k c = Ok c' /\ Dict.keys d' = Dict.keys c'.
Proof.
  revert d' c. induction d as [| [k1 v1] d IH]; intros d' [| [k2 w2] c] Hk Hdel;
    simpl in Hk, Hdel; try discriminate.
  injection Hk as Hhd Htl. subst k2. simpl.
  destruct (String.eqb k k1).
  - injection Hdel as <-. now exists c.
  - destruct (Dict.delitem k d) as [d0 | e] eqn:Hd; simpl in Hdel; [| discriminate].
    injection Hdel as <-.
    destruct (IH d0 c Htl eq_refl) as [c0 [Hc0 Hkeys]].
    exists ((k1, w2) :: c0). rewrite Hc0. simpl. split; [reflexivity |].
    now rewrite Hkeys.
Qed.

Lemma mem_delitem {V} (k : string) (d : list (string * V)) :
  Dict.mem k d = true -> exists d', Dict.delitem k d = Ok d'.
Proof.
  unfold Dict.mem. induction d as [| [k1 v1] d IH]; simpl.
  - discriminate.
  - destruct (String.eqb k k1); simpl.
    + intros _. now exists d.
    + intros H. destruct (IH H) as [d' Hd']. rewrite Hd'. simpl. eauto.
Qed.

(** ** Registration *)

Lemma register_same_keys (skill : BaseSkill) (self : SkillRegistry) :
  same_keys self -> same_keys (snd (register skill self)).
Proof.
  unfold same_keys, register. intros H.
  destruct (validate skill); simpl; [| exact H].
  now apply setitem_keys.
Qed.

Lemma unregister_same_keys (skill_name : string) (self : SkillRegistry) :
  same_keys self -> same_keys (snd (unregister skill_name self)).
Proof.
  unfold same_keys, unregister. intros H.
  destruct (Dict.mem skill_name (_skills self)) eqn:Hmem; [| exact H].
  destruct (mem_delitem _ _ Hmem) as [skills' Hdel]. rewrite Hdel.
  destruct (delitem_keys _ _ _ _ H Hdel) as [cache' [Hc Hkeys]].
  simpl. rewrite Hc. simpl. exact Hkeys.
Qed.

Lemma apply_op_same_keys (op : RegistryOp) (self : SkillRegistry) :
  same_keys self -> same_keys (apply_op op self).
Proof.
  destruct op; [apply register_same_keys | apply unregister_same_keys].
Qed.

Lemma states_after_same_keys (ops : list RegistryOp) (self : SkillRegistry) :
  same_keys self -> Forall same_keys (states_after ops self).
Proof.
  revert self. induction ops as [| op ops IH]; intros self H; simpl.
  - constructor.
  - constructor.
    + now apply apply_op_same_keys.
    + apply IH. now apply apply_op_same_keys.
Qed.

(** C4. Starting from the empty registry, after every call of a sequence
    of [register] and [unregister] calls the keys of [_skills] are the
    keys of [_metadata_cache]: the same names (in the same order), so a
    name is in one dictionary exactly when it is in the other. *)
Theorem C4_key_sets_equal (ops : list RegistryOp) :
  Forall (fun self =>
            Dict.keys (_skills self) = Dict.keys (_metadata_cache self)
            /\ forall k, In k (Dict.keys (_skills self))
                         <-> In k (Dict.keys (_metadata_cache self)))
         (states_after ops Registry.init).
Proof.
  assert (H : Forall same_keys (states_after ops Registry.init)).
  { apply states_after_same_keys. reflexivity. }
  eapply Forall_impl; [| exact H].
  intros self Hs. unfold same_keys in Hs. split; [exact Hs |].
  intros k. now rewrite Hs.
Qed.

Lemma validate_rejects (skill : BaseSkill) :
  name (metadata skill) = ""%string \/ description (metadata skill) = ""%string
  \/ get_tools skill = [] \/ get_loader_tool skill = PyNone ->
  exists reason,
    validate skill = Raise (ValueError reason)
    /\ In reason ["Skill name cannot be empty";
                  "Skill description cannot be empty";
                  "Skill must provide at least one tool";
                  "Skill must provide a loader tool"]%string.
Proof.
  intros H. unfold validate.
  destruct (Py.str_truthy (name (metadata skill))) eqn:E1; simpl;
    [| eexists; split; [reflexivity | simpl; tauto]].
  destruct (Py.str_truthy (description (metadata skill))) eqn:E2; simpl;
    [| eexists; split; [reflexivity | simpl; tauto]].
  destruct (Py.list_truthy (get_tools skill)) eqn:E3; simpl;
    [| eexists; split; [reflexivity | simpl; tauto]].
  destruct (tool_truthy (get_loader_tool skill)) eqn:E4; simpl;
    [| eexists; split; [reflexivity | simpl; tauto]].
  exfalso. destruct H as [H | [H | [H | H]]].
  - rewrite H in E1. discriminate.
  - rewrite H in E2. discriminate.
  - rewrite H in E3. discriminate.
  - rewrite H in E4. discriminate.
Qed.

(** C3, as the code has it. A skill that fails [validate] (empty name,
    empty description, no tools, or no loader tool) is not registered:
    [register] leaves [_skills] and [_metadata_cache] as they were and
    raises a [ValueError] whose message is one of the four fixed reasons
    of [validate]; the message does not name the skill. *)
Theorem C3_register_invalid_raises_ValueError
    (skill : BaseSkill) (self : SkillRegistry) :
  name (metadata skill) = ""%string \/ description (metadata skill) = ""%string
  \/ get_tools skill = [] \/ get_loader_tool skill = PyNone ->
  exists reason,
    register skill self = (Raise (ValueError reason), self)
    /\ In reason ["Skill name cannot be empty";
                  "Skill description cannot be empty";
                  "Skill must provide at least one tool";
                  "Skill must provide a loader tool"]%string.
Proof.
  intros H. destruct (validate_rejects skill H) as [reason [Hv Hin]].
  exists reason. split; [| exact Hin]. unfold register. now rewrite Hv.
Qed.

Lemma C3_register_invalid_raises_ValueError_witness :
  exists reason,
    register Samples.nameless Registry.init
    = (Raise (ValueError reason), Registry.init)
    /\ In reason ["Skill name cannot be empty";
                  "Skill description cannot be empty";
                  "Skill must provide at least one tool";
                  "Skill must provide a loader tool"]%string.
Proof.
  apply (C3_register_invalid_raises_ValueError Samples.nameless Registry.init).
  left. reflexivity.
Defined.

(** C3, as the specification has it, fails: registering a skill with an
    empty name raises [ValueError], not a [SkillLoadError] carrying the
    skill's name and a reason. *)
Lemma C3_validation_failure_is_not_SkillLoadError :
  register Samples.nameless Registry.init
  = (Raise (ValueError "Skill name cannot be empty"), Registry.init)
  /\ ~ exists skill_name reason,
         register Samples.nameless Registry.init
         = (Raise (SkillLoadError skill_name reason), Registry.init).
Proof.
  split; [reflexivity |].
  intros [skill_name [reason H]]. discriminate H.
Qed.

(** ** Assembling tools *)

Lemma keys_mem {V} (k : string) (d : list (string * V)) :
  In k (Dict.keys d) -> Dict.mem k d = true.
Proof. intros H. rewrite mem_keys. now apply contains_true_iff. Qed.

Lemma loader_loop_ok (self : SkillRegistry) (skill_names : list string) :
  (forall n, In n skill_names -> Dict.mem n (_skills self) = true) ->
  exists ls, forall loaders,
    loader_loop self skill_names loaders = Ok (loaders ++ ls).
Proof.
  induction skill_names as [| n rest IH]; intros Hall.
  - exists []. intros loaders. simpl. now rewrite app_nil_r.
  - destruct IH as [ls Hls]. { intros m Hm. apply Hall. now right. }
    destruct (mem_getitem n (_skills self)) as [skill Hskill].
    { apply Hall. now left. }
    destruct (enabled (metadata skill)) eqn:Hen.
    + exists (get_loader_tool skill :: ls). intros loaders. simpl.
      rewrite Hskill. simpl. rewrite Hen, Hls. now rewrite <- app_assoc.
    + exists ls. intros loaders. simpl. rewrite Hskill. simpl.
      now rewrite Hen, Hls.
Qed.

(** All keys of [_skills] are looked up, so no [KeyError] arises. *)
Lemma get_all_loader_tools_ok (self : SkillRegistry) :
  exists loaders, get_all_loader_tools None self = Ok loaders.
Proof.
  unfold get_all_loader_tools, list_skills.
  destruct (loader_loop_ok self (Dict.keys (_skills self))) as [ls Hls].
  - intros n. apply keys_mem.
  - exists ls. now rewrite Hls.
Qed.

Lemma unlocked_loop_ok (self : SkillRegistry) (skill_names : list string) :
  exists ts, forall tools,
    unlocked_loop self skill_names tools = Ok (tools ++ ts).
Proof.
  induction skill_names as [| n rest [ts Hts]].
  - exists []. intros tools. simpl. now rewrite app_nil_r.
  - destruct (Dict.mem n (_skills self)) eqn:Hmem.
    + destruct (mem_getitem _ _ Hmem) as [skill Hskill].
      destruct (enabled (metadata skill)) eqn:Hen.
      * exists (get_tools skill ++ ts). intros tools. simpl.
        rewrite Hmem, Hskill. simpl. rewrite Hen, Hts. now rewrite app_assoc.
      * exists ts. intros tools. simpl. rewrite Hmem, Hskill. simpl.
        now rewrite Hen, Hts.
    + exists ts. intros tools. simpl. now rewrite Hmem, Hts.
Qed.

Lemma unlocked_loop_remove (self : SkillRegistry) (unknown : string)
    (skill_names : list string) :
  Dict.mem unknown (_skills self) = false ->
  forall tools,
    unlocked_loop self (remove string_dec unknown skill_names) tools
    = unlocked_loop self skill_names tools.
Proof.
  intros Hunk. induction skill_names as [| n rest IH]; intros tools.
  - reflexivity.
  - simpl remove. destruct (string_dec unknown n) as [<- | Hne].
    + simpl. rewrite Hunk. apply IH.
    + simpl. destruct (Dict.mem n (_skills self)); [| apply IH].
      destruct (Dict.getitem n (_skills self)) as [skill | e]; simpl;
        [| reflexivity].
      destruct (enabled (metadata skill)); apply IH.
Qed.

(** C1, as the code has it. When [x] is registered and enabled,
    [get_tools_for_skills([x, x])] is [get_tools_for_skills([x])]
    followed once more by the tools of [x]: the same tools are offered,
    and each tool of [x] is listed twice. *)
Theorem C1_duplicate_name_repeats_tools
    (self : SkillRegistry) (x : string) (skill : BaseSkill) :
  Dict.getitem x (_skills self) = Ok skill ->
  enabled (metadata skill) = true ->
  exists once,
    get_tools_for_skills [x] self = Ok once
    /\ get_tools_for_skills [x; x] self = Ok (once ++ get_tools skill)
    /\ (forall t, In t (once ++ get_tools skill) <-> In t once).
Proof.
  intros Hget Hen. pose proof (getitem_mem _ _ _ Hget) as Hmem.
  destruct (get_all_loader_tools_ok self) as [loaders Hl].
  exists (loaders ++ get_tools skill).
  unfold get_tools_for_skills. rewrite Hl. simpl.
  rewrite Hmem, Hget. simpl. rewrite Hen. repeat split; try reflexivity.
  - rewrite !in_app_iff. tauto.
  - rewrite !in_app_iff. tauto.
Qed.

Lemma C1_duplicate_name_repeats_tools_witness :
  exists once,
    get_tools_for_skills ["X"%string] Samples.reg_X = Ok once
    /\ get_tools_for_skills ["X"%string; "X"%string] Samples.reg_X
       = Ok (once ++ get_tools Samples.X)
    /\ (forall t, In t (once ++ get_tools Samples.X) <-> In t once).
Proof.
  apply (C1_duplicate_name_repeats_tools Samples.reg_X "X" Samples.X);
    reflexivity.
Defined.

(** C1, as the specification has it, fails: with [X] registered,
    [get_tools_for_skills(["X","X"])] lists both tools of [X] twice and
    so differs from [get_tools_for_skills(["X"])]. *)
Lemma C1_duplicate_name_duplicates_tools :
  get_tools_for_skills ["X"%string; "X"%string] Samples.reg_X
  = Ok [Samples.X_loader; Samples.X_op1; Samples.X_op2;
        Samples.X_op1; Samples.X_op2]
  /\ get_tools_for_skills ["X"%string] Samples.reg_X
     = Ok [Samples.X_loader; Samples.X_op1; Samples.X_op2]
  /\ get_tools_for_skills ["X"%string; "X"%string] Samples.reg_X
     <> get_tools_for_skills ["X"%string] Samples.reg_X.
Proof.
  split; [reflexivity |]. split; [reflexivity |].
  intros H. discriminate H.
Qed.

(** C5. A name that is not registered changes nothing:
    [get_tools_for_skills] raises no error and returns the same tools as
    for the list with that name removed. *)
Theorem C5_unregistered_name_ignored
    (self : SkillRegistry) (skill_names : list string) (unknown : string) :
  Registry.contains unknown self = false ->
  exists tools,
    get_tools_for_skills skill_names self = Ok tools
    /\ get_tools_for_skills (remove string_dec unknown skill_names) self
       = Ok tools.
Proof.
  unfold Registry.contains. intros Hunk.
  destruct (get_all_loader_tools_ok self) as [loaders Hl].
  destruct (unlocked_loop_ok self skill_names) as [ts Hts].
  exists (loaders ++ ts). unfold get_tools_for_skills. rewrite Hl. simpl.
  rewrite (unlocked_loop_remove self unknown skill_names Hunk).
  now rewrite Hts.
Qed.

Lemma C5_unregistered_name_ignored_witness :
  exists tools,
    get_tools_for_skills ["ghost"; "X"]%string Samples.reg_X = Ok tools
    /\ get_tools_for_skills
         (remove string_dec "ghost"%string ["ghost"; "X"]%string) Samples.reg_X
       = Ok tools.
Proof.
  apply (C5_unregistered_name_ignored Samples.reg_X ["ghost"; "X"]%string "ghost").
  reflexivity.
Defined.

(** ** Exposure middleware *)

Lemma bind_Ok_id {A} (m : result A) : (x <- m ;; Ok x) = m.
Proof. now destruct m. Qed.

(** [_get_filtered_tools] never consults [filter_fn]. *)
Lemma get_filtered_tools_ignores_filter_fn
    (reg : SkillRegistry) (verbose : bool)
    (filter_fn : option (BaseTool -> bool)) (skills_loaded : list string) :
  SkillMiddlewareM._get_filtered_tools
    (SkillMiddlewareM.init reg verbose filter_fn)
    (SkillMiddlewareM.VNames skills_loaded)
  = get_tools_for_skills skills_loaded reg.
Proof. unfold SkillMiddlewareM._get_filtered_tools. apply bind_Ok_id. Qed.

(** C2. [SkillMiddleware] stores [filter_fn] and does not apply it: built
    over a registry holding [X] with a [filter_fn] that rejects every
    tool, [wrap_model_call] hands the model a request offering the loader
    of [X], a tool [filter_fn] rejects, while
    [SimpleSkillMiddleware.get_tools_for_state], built the same way,
    offers nothing. *)
Theorem C2_middleware_does_not_apply_filter_fn :
  let reject_all := fun _ : BaseTool => false in
  let request :=
    {| SkillMiddlewareM.state := None;
       SkillMiddlewareM.tools := [];
       SkillMiddlewareM.messages := [] |} in
  SkillMiddlewareM.wrap_model_call
    (SkillMiddlewareM.init Samples.reg_X false (Some reject_all))
    request (fun r => Ok (SkillMiddlewareM.tools r))
  = Ok [Samples.X_loader]
  /\ SkillMiddlewareM.awrap_model_call
       (SkillMiddlewareM.init Samples.reg_X false (Some reject_all))
       request (fun r => Ok (SkillMiddlewareM.tools r))
     = Ok [Samples.X_loader]
  /\ reject_all Samples.X_loader = false
  /\ SimpleSkillMiddlewareM.get_tools_for_state
       (SimpleSkillMiddlewareM.init Samples.reg_X false (Some reject_all)) []
     = Ok [].
Proof. repeat split. Qed.

(** ** Discovery *)


Lemma register_valid (skill : BaseSkill) (self : SkillRegistry) (b : bool) :
  validate skill = Ok b -> fst (register skill self) = Ok tt.
Proof. intros H. unfold register. now rewrite H. Qed.

Lemma register_invalid (skill : BaseSkill) (self : SkillRegistry) (e : PyException) :
  validate skill = Raise e -> register skill self = (Raise e, self).
Proof. intros H. unfold register. now rewrite H. Qed.

(** What [validate] raises is a [ValueError], which [except Exception]
    catches. *)
Lemma validate_raises_Exception (skill : BaseSkill) (e : PyException) :
  validate skill = Raise e -> is_Exception e = true.
Proof.
  unfold validate.
  destruct (negb (Py.str_truthy (name (metadata skill))));
    [intros H; injection H as <-; reflexivity |].
  destruct (negb (Py.str_truthy (description (metadata skill))));
    [intros H; injection H as <-; reflexivity |].
  destruct (negb (Py.list_truthy (get_tools skill)));
    [intros H; injection H as <-; reflexivity |].
  destruct (negb (tool_truthy (get_loader_tool skill)));
    [intros H; injection H as <-; reflexivity |].
  discriminate.
Qed.

(** One turn of the loop, by what the entry does: it raises past
    [except Exception], it contributes a skill, or it is passed over. *)
Lemma discover_loop_cons (entry : DirEntry) (rest : list DirEntry)
    (module_name : string) (loaded_count : nat) (self : SkillRegistry) :
  discover_loop (entry :: rest) module_name loaded_count self
  = match abort_of module_name entry with
    | Some e => (Raise e, self)
    | None =>
        match loaded_skill module_name entry with
        | Some skill =>
            discover_loop rest module_name (loaded_count + 1)
              (snd (register skill self))
        | None => discover_loop rest module_name loaded_count self
        end
    end.
Proof.
  unfold abort_of, loaded_skill. cbn [discover_loop].
  destruct (is_dir entry); cbn [negb]; [| reflexivity].
  destruct (file_at entry (module_name ++ ".py")) as [f |]; [| reflexivity].
  destruct (_load_skill_from_file f entry) as [skill | e].
  - destruct (validate skill) as [b | e] eqn:Hv.
    + unfold register. rewrite Hv. reflexivity.
    + rewrite (register_invalid _ _ _ Hv).
      now rewrite (validate_raises_Exception _ _ Hv).
  - now destruct (is_Exception e).
Qed.




(** The outcome of the loop: what the first aborting subdirectory raises,
    or else the number of subdirectories whose skill was registered. *)
Lemma discover_loop_fst (entries : list DirEntry) (module_name : string)
    (loaded_count : nat) (self : SkillRegistry) :
  fst (discover_loop entries module_name loaded_count self)
  = match first_abort module_name entries with
    | Some e => Raise e
    | None =>
        Ok (loaded_count + List.length (filter (registers_ok module_name) entries))
    end.
Proof.
  revert loaded_count self.
  induction entries as [| entry rest IH]; intros c self.
  - simpl. f_equal. lia.
  - rewrite discover_loop_cons. simpl first_abort. simpl filter.
    unfold registers_ok at 1.
    destruct (abort_of module_name entry); [reflexivity |].
    destruct (loaded_skill module_name entry); rewrite IH;
      destruct (first_abort module_name rest); try reflexivity;
      f_equal; simpl; lia.
Qed.



(** The registry the loop leaves is the one it leaves on the
    subdirectories it got through. *)
Lemma discover_loop_snd (entries : list DirEntry) (module_name : string)
    (loaded_count : nat) (self : SkillRegistry) :
  snd (discover_loop entries module_name loaded_count self)
  = snd (discover_loop (processed module_name entries) module_name
           loaded_count self).
Proof.
  revert loaded_count self.
  induction entries as [| entry rest IH]; intros c self.
  - reflexivity.
  - simpl processed. rewrite discover_loop_cons.
    destruct (abort_of module_name entry) eqn:Ha; [reflexivity |].
    rewrite discover_loop_cons, Ha.
    destruct (loaded_skill module_name entry); apply IH.
Qed.

Lemma register_keeps (skill : BaseSkill) (self : SkillRegistry) (k : string) :
  Dict.mem k (_skills self) = true ->
  Dict.mem k (_skills (snd (register skill self))) = true.
Proof.
  intros H. unfold register. destruct (validate skill); simpl; [| exact H].
  rewrite setitem_mem, H. apply orb_true_r.
Qed.

Lemma register_adds (skill : BaseSkill) (self : SkillRegistry) (b : bool) :
  validate skill = Ok b ->
  Dict.mem (name (metadata skill)) (_skills (snd (register skill self))) = true.
Proof.
  intros H. unfold register. rewrite H. simpl.
  rewrite setitem_mem, String.eqb_refl. reflexivity.
Qed.

Lemma discover_loop_keeps (entries : list DirEntry) (module_name : string)
    (loaded_count : nat) (self : SkillRegistry) (k : string) :
  Dict.mem k (_skills self) = true ->
  Dict.mem k (_skills (snd (discover_loop entries module_name loaded_count self)))
  = true.
Proof.
  revert loaded_count self.
  induction entries as [| entry rest IH]; intros c self H.
  - exact H.
  - rewrite discover_loop_cons.
    destruct (abort_of module_name entry); [exact H |].
    destruct (loaded_skill module_name entry); apply IH;
      [now apply register_keeps | exact H].
Qed.

Lemma loaded_skill_valid (module_name : string) (entry : DirEntry)
    (skill : BaseSkill) :
  loaded_skill module_name entry = Some skill -> exists b, validate skill = Ok b.
Proof.
  unfold loaded_skill. destruct (is_dir entry); [| discriminate].
  destruct (file_at entry (module_name ++ ".py")) as [f |]; [| discriminate].
  destruct (_load_skill_from_file f entry) as [s | e]; [| discriminate].
  destruct (validate s) as [b | e] eqn:Hv; [| discriminate].
  intros H. injection H as <-. now exists b.
Qed.

Lemma discover_loop_registers (entries : list DirEntry) (module_name : string)
    (loaded_count : nat) (self : SkillRegistry)
    (entry : DirEntry) (skill : BaseSkill) :
  In entry (processed module_name entries) ->
  loaded_skill module_name entry = Some skill ->
  Dict.mem (name (metadata skill))
    (_skills (snd (discover_loop entries module_name loaded_count self)))
  = true.
Proof.
  revert loaded_count self.
  induction entries as [| e rest IH]; intros c self Hin Hload.
  - destruct Hin.
  - rewrite discover_loop_cons. simpl in Hin.
    destruct (abort_of module_name e); [destruct Hin |].
    destruct Hin as [-> | Hin].
    + rewrite Hload. apply discover_loop_keeps.
      destruct (loaded_skill_valid _ _ _ Hload) as [b Hb].
      now apply register_adds with (b := b).
    + destruct (loaded_skill module_name e); now apply IH.
Qed.




(** ** Search *)

Lemma search_loop_filter (lower : string -> string)
    (metas : list SkillMetadata) (query : string)
    (tags : option (list string)) (visibility : option string)
    (results : list SkillMetadata) :
  search_loop lower metas query tags visibility results
  = results
    ++ filter (fun meta => negb (search_skips lower query tags visibility meta))
         metas.
Proof.
  revert results. induction metas as [| meta rest IH]; intros results; simpl.
  - now rewrite app_nil_r.
  - destruct (search_skips lower query tags visibility meta); simpl; rewrite IH.
    + reflexivity.
    + now rewrite <- app_assoc.
Qed.

Lemma search_is_filter (lower : string -> string)
    (query : string) (tags : option (list string))
    (visibility : option string) (self : SkillRegistry) :
  search lower query tags visibility self
  = filter (fun meta => negb (search_skips lower query tags visibility meta))
           (Dict.values (_metadata_cache self)).
Proof. unfold search. now rewrite search_loop_filter. Qed.

(** The query reaches the comparison only through [lower()] and its
    truth value. *)
Lemma search_skips_query (lower : string -> string)
    (query query' : string) (tags : option (list string))
    (visibility : option string) (meta : SkillMetadata) :
  lower query = lower query' ->
  Py.str_truthy query = Py.str_truthy query' ->
  search_skips lower query tags visibility meta
  = search_skips lower query' tags visibility meta.
Proof. intros Hl Ht. unfold search_skips. now rewrite Hl, Ht. Qed.

(** With a query alone, a descriptor is kept exactly when the lowered
    query occurs in its lowered name or in its lowered description. *)
Lemma search_skips_query_only (lower : string -> string)
    (query : string) (meta : SkillMetadata) :
  query <> ""%string ->
  search_skips lower query None None meta
  = negb (Py.str_in (lower query) (lower (name meta))
          || Py.str_in (lower query) (lower (description meta))).
Proof.
  intros Hq. unfold search_skips.
  destruct query as [| c q]; [contradiction |]. cbn [Py.str_truthy andb].
  destruct (Py.str_in (lower (String c q)) (lower (name meta)));
    destruct (Py.str_in (lower (String c q)) (lower (description meta)));
    reflexivity.
Qed.

(** With tags alone, a descriptor is kept exactly when the list is empty
    or one of its tags is, as it is written, among the descriptor's. *)
Lemma search_skips_tags_only (lower : string -> string)
    (tags : list string) (meta : SkillMetadata) :
  search_skips lower "" (Some tags) None meta = false
  <-> tags = [] \/ exists tag, In tag tags /\ In tag (BaseSkillM.tags meta).
Proof.
  unfold search_skips. cbn [Py.str_truthy andb].
  destruct tags as [| t ts]; cbn [Py.list_truthy andb].
  - split; [now left | reflexivity].
  - destruct (any_tag_in (t :: ts) (BaseSkillM.tags meta)) eqn:Hany;
      cbn [negb]; unfold any_tag_in in Hany.
    + split; [| reflexivity]. intros _. right.
      apply existsb_exists in Hany. destruct Hany as [tag [Hin Hc]].
      exists tag. split; [exact Hin | now apply contains_true_iff].
    + split; [discriminate |]. intros [Hnil | [tag [Hin Hc]]]; [discriminate |].
      exfalso. apply contains_true_iff in Hc.
      assert (Ht : existsb (fun tag => Py.contains tag (BaseSkillM.tags meta))
                     (t :: ts) = true)
        by (apply existsb_exists; exists tag; auto).
      rewrite Ht in Hany. discriminate.
Qed.

Lemma lower_ascii_idem (c : ascii) :
  Py.lower_ascii (Py.lower_ascii c) = Py.lower_ascii c.
Proof. destruct c as [[] [] [] [] [] [] [] []]; reflexivity. Qed.

Lemma lower_idem (s : string) : Py.lower (Py.lower s) = Py.lower s.
Proof.
  induction s as [| c s IH]; simpl; [reflexivity |].
  now rewrite lower_ascii_idem, IH.
Qed.

Lemma lower_truthy (s : string) : Py.str_truthy (Py.lower s) = Py.str_truthy s.
Proof. now destruct s. Qed.

Lemma lower_upper_ascii (c : ascii) :
  Py.lower_ascii (Py.upper_ascii c) = Py.lower_ascii c.
Proof. destruct c as [[] [] [] [] [] [] [] []]; reflexivity. Qed.

Lemma lower_upper (s : string) : Py.lower (Py.upper s) = Py.lower s.
Proof.
  induction s as [| c s IH]; simpl; [reflexivity |].
  now rewrite lower_upper_ascii, IH.
Qed.

Lemma upper_truthy (s : string) : Py.str_truthy (Py.upper s) = Py.str_truthy s.
Proof. now destruct s. Qed.

(** On ASCII text, a query in lower case, in upper case or as it was
    typed finds the same descriptors. *)
Lemma search_ascii_query_case (query : string) (tags : option (list string))
    (visibility : option string) (self : SkillRegistry) :
  search Py.lower (Py.lower query) tags visibility self
  = search Py.lower query tags visibility self
  /\ search Py.lower (Py.upper query) tags visibility self
     = search Py.lower query tags visibility self.
Proof.
  rewrite !search_is_filter. split; apply filter_ext; intros meta; f_equal;
    apply search_skips_query.
  - apply lower_idem.
  - apply lower_truthy.
  - apply lower_upper.
  - apply upper_truthy.
Qed.

(** C10. [search] matches tags by exact membership and the query without
    regard to case. For a registered skill tagged ["math"] and not
    ["Math"], [search(tags=["Math"])] does not return its descriptor and
    [search(tags=["math"])] does; [search(tags=...)] returns it exactly
    when one of the given tags, as written, is among its tags. A query
    is compared after [lower()] on both sides: [search(query)] returns
    the descriptor exactly when the lowered query occurs in the lowered
    name or in the lowered description, so two queries with the same
    [lower()] give the same result. On the registry holding the skill
    named ["Gamma"], described as ["Third Greek Letter"], the queries
    ["GAMMA"] and ["greek"] both find it. *)
Theorem C10_search_tags_exact_query_lowered
    (lower : string -> string) (self : SkillRegistry) (meta : SkillMetadata) :
  In meta (Dict.values (_metadata_cache self)) ->
  In "math"%string (tags meta) ->
  ~ In "Math"%string (tags meta) ->
  ~ In meta (search lower "" (Some ["Math"%string]) None self)
  /\ In meta (search lower "" (Some ["math"%string]) None self)
  /\ (forall given,
        In meta (search lower "" (Some given) None self)
        <-> given = [] \/ exists tag, In tag given /\ In tag (tags meta))
  /\ (forall query,
        query <> ""%string ->
        (In meta (search lower query None None self)
         <-> Py.str_in (lower query) (lower (name meta)) = true
             \/ Py.str_in (lower query) (lower (description meta)) = true))
  /\ (forall query query' given visibility,
        lower query = lower query' ->
        Py.str_truthy query = Py.str_truthy query' ->
        search lower query given visibility self
        = search lower query' given visibility self)
  /\ search Py.lower "GAMMA" None None Samples.reg_Gamma
     = [metadata Samples.Gamma]
  /\ search Py.lower "greek" None None Samples.reg_Gamma
     = [metadata Samples.Gamma]
  /\ search Py.lower "" (Some ["Math"%string]) None Samples.reg_Gamma = [].
Proof.
  intros Hreg Hmath HMath.
  assert (Htags : forall given,
             In meta (search lower "" (Some given) None self)
             <-> given = [] \/ exists tag, In tag given /\ In tag (tags meta)).
  { intros given. rewrite search_is_filter, filter_In, negb_true_iff.
    rewrite search_skips_tags_only. tauto. }
  split; [| split; [| split; [exact Htags | split; [| split]]]].
  - intros Hin. apply Htags in Hin.
    destruct Hin as [Hnil | [tag [[<- | []] Hin]]]; [discriminate |].
    now apply HMath.
  - apply Htags. right. exists "math"%string. split; [now left | exact Hmath].
  - intros query Hq. rewrite search_is_filter, filter_In, negb_true_iff.
    rewrite (search_skips_query_only lower query meta Hq).
    rewrite negb_false_iff, orb_true_iff. tauto.
  - intros query query' given visibility Hl Ht. rewrite !search_is_filter.
    apply filter_ext. intros m. f_equal. now apply search_skips_query.
  - repeat split.
Qed.

Lemma C10_search_tags_exact_query_lowered_witness :
  ~ In (metadata Samples.alpha)
      (search Py.lower "" (Some ["Math"%string]) None Samples.reg_alpha_beta)
  /\ In (metadata Samples.alpha)
       (search Py.lower "" (Some ["math"%string]) None Samples.reg_alpha_beta)
  /\ (forall given,
        In (metadata Samples.alpha)
          (search Py.lower "" (Some given) None Samples.reg_alpha_beta)
        <-> given = []
            \/ exists tag, In tag given /\ In tag (tags (metadata Samples.alpha)))
  /\ (forall query,
        query <> ""%string ->
        (In (metadata Samples.alpha)
           (search Py.lower query None None Samples.reg_alpha_beta)
         <-> Py.str_in (Py.lower query)
               (Py.lower (name (metadata Samples.alpha))) = true
             \/ Py.str_in (Py.lower query)
                  (Py.lower (description (metadata Samples.alpha))) = true))
  /\ (forall query query' given visibility,
        Py.lower query = Py.lower query' ->
        Py.str_truthy query = Py.str_truthy query' ->
        search Py.lower query given visibility Samples.reg_alpha_beta
        = search Py.lower query' given visibility Samples.reg_alpha_beta)
  /\ search Py.lower "GAMMA" None None Samples.reg_Gamma
     = [metadata Samples.Gamma]
  /\ search Py.lower "greek" None None Samples.reg_Gamma
     = [metadata Samples.Gamma]
  /\ search Py.lower "" (Some ["Math"%string]) None Samples.reg_Gamma = [].
Proof.
  apply (C10_search_tags_exact_query_lowered Py.lower
           Samples.reg_alpha_beta (metadata Samples.alpha)).
  - simpl. left. reflexivity.
  - simpl. left. reflexivity.
  - simpl. intros [H | []]. discriminate H.
Defined.

(** The search scenario: by query in either case, by tag, and with no
    criterion. *)
Example search_scenario :
  search Py.lower "al" None None Samples.reg_alpha_beta = [metadata Samples.alpha]
  /\ search Py.lower "AL" None None Samples.reg_alpha_beta
     = [metadata Samples.alpha]
  /\ search Py.lower "" (Some ["text"%string]) None Samples.reg_alpha_beta
     = [metadata Samples.beta]
  /\ search Py.lower "" (Some ["Text"%string]) None Samples.reg_alpha_beta = []
  /\ search Py.lower "" None None Samples.reg_alpha_beta
     = [metadata Samples.alpha; metadata Samples.beta].
Proof. repeat split. Qed.

(** The round-trip scenario on the registry holding [X] alone. *)
Example round_trip_scenario :
  get_tools_for_skills [] Samples.reg_X = Ok [Samples.X_loader]
  /\ get_tools_for_skills ["X"%string] Samples.reg_X
     = Ok [Samples.X_loader; Samples.X_op1; Samples.X_op2].
Proof. repeat split. Qed.

(** The reducer examples. *)
Example reducer_examples :
  State.skill_list_accumulator ["a"; "b"] ["b"; "c"] = ["a"; "b"; "c"]%string
  /\ State.skill_list_fifo 2 ["a"; "b"] ["c"] = ["b"; "c"]%string
  /\ State.skill_list_reducer ["a"; "b"] ["c"] = ["c"]%string.
Proof. repeat split. Qed.

(* ================================================================== *)
(** * Part III: further properties of the code                         *)
(* ================================================================== *)

(** ** More on dictionaries *)

Lemma getitem_setitem_eq {V} (k : string) (v : V) (d : list (string * V)) :
  Dict.getitem k (Dict.setitem k v d) = Ok v.
Proof.
  induction d as [| [k1 v1] d IH]; simpl.
  - now rewrite String.eqb_refl.
  - destruct (String.eqb k k1) eqn:Hk; simpl; rewrite Hk; [reflexivity | exact IH].
Qed.

Lemma getitem_setitem_ne {V} (k k' : string) (v : V) (d : list (string * V)) :
  k' <> k -> Dict.getitem k' (Dict.setitem k v d) = Dict.getitem k' d.
Proof.
  intros Hne. apply String.eqb_neq in Hne.
  induction d as [| [k1 v1] d IH]; simpl.
  - now rewrite Hne.
  - destruct (String.eqb k k1) eqn:Hk; simpl.
    + apply String.eqb_eq in Hk. subst k1. now rewrite Hne.
    + now rewrite IH.
Qed.

Lemma setitem_keys_eq {V} (k : string) (v : V) (d : list (string * V)) :
  Dict.keys (Dict.setitem k v d)
  = if Dict.mem k d then Dict.keys d else Dict.keys d ++ [k].
Proof.
  unfold Dict.mem, Dict.keys. induction d as [| [k1 v1] d IH]; simpl.
  - reflexivity.
  - destruct (String.eqb k k1) eqn:Hk; simpl; [reflexivity |].
    rewrite IH. now destruct (existsb _ d).
Qed.

Lemma mem_false_keys {V} (k : string) (d : list (string * V)) :
  Dict.mem k d = false -> ~ In k (Dict.keys d).
Proof. rewrite mem_keys. apply contains_false_iff. Qed.

Lemma setitem_map {V W} (g : V -> W) (k : string) (v : V) (d : list (string * V)) :
  Dict.setitem k (g v) (map (fun kv => (fst kv, g (snd kv))) d)
  = map (fun kv => (fst kv, g (snd kv))) (Dict.setitem k v d).
Proof.
  induction d as [| [k1 v1] d IH]; simpl.
  - reflexivity.
  - destruct (String.eqb k k1); simpl; [reflexivity | now rewrite IH].
Qed.

Lemma setitem_Forall {V} (P : string * V -> Prop) (k : string) (v : V)
    (d : list (string * V)) :
  P (k, v) -> Forall P d -> Forall P (Dict.setitem k v d).
Proof.
  intros Hkv Hd. induction Hd as [| [k1 v1] d H1 Hd IH]; simpl.
  - now repeat constructor.
  - destruct (String.eqb k k1) eqn:Hk.
    + apply String.eqb_eq in Hk. subst k1. now constructor.
    + now constructor.
Qed.

(** [del d[k]] removes the first (and, in a [dict], only) entry of [k]. *)
Lemma delitem_split {V} (k : string) (d d' : list (string * V)) :
  Dict.delitem k d = Ok d' ->
  exists d1 v d2,
    d = d1 ++ (k, v) :: d2 /\ d' = d1 ++ d2 /\ ~ In k (Dict.keys d1).
Proof.
  revert d'. induction d as [| [k1 v1] d IH]; intros d' H; simpl in H.
  - discriminate.
  - destruct (String.eqb k k1) eqn:Hk.
    + apply String.eqb_eq in Hk. subst k1. injection H as <-.
      exists [], v1, d. simpl. auto.
    + destruct (Dict.delitem k d) as [d0 | e]; simpl in H; [| discriminate].
      injection H as <-. destruct (IH d0 eq_refl) as [d1 [v [d2 [-> [-> Hnin]]]]].
      exists ((k1, v1) :: d1), v, d2. simpl. repeat split; try reflexivity.
      intros [Heq | Hin]; [| contradiction].
      subst k1. now rewrite String.eqb_refl in Hk.
Qed.

Lemma delitem_map {V W} (g : V -> W) (k : string) (d : list (string * V)) :
  Dict.delitem k (map (fun kv => (fst kv, g (snd kv))) d)
  = (d' <- Dict.delitem k d ;; Ok (map (fun kv => (fst kv, g (snd kv))) d')).
Proof.
  induction d as [| [k1 v1] d IH]; simpl.
  - reflexivity.
  - destruct (String.eqb k k1); simpl; [reflexivity |].
    rewrite IH. now destruct (Dict.delitem k d).
Qed.

Lemma getitem_delitem_ne {V} (k k' : string) (d d' : list (string * V)) :
  Dict.delitem k d = Ok d' -> k' <> k ->
  Dict.getitem k' d' = Dict.getitem k' d.
Proof.
  intros Hdel Hne. apply String.eqb_neq in Hne.
  revert d' Hdel. induction d as [| [k1 v1] d IH]; intros d' Hdel; simpl in Hdel.
  - discriminate.
  - destruct (String.eqb k k1) eqn:Hk.
    + apply String.eqb_eq in Hk. subst k1. injection Hdel as <-.
      simpl. now rewrite Hne.
    + destruct (Dict.delitem k d) as [d0 | e]; simpl in Hdel; [| discriminate].
      injection Hdel as <-. simpl. destruct (String.eqb k' k1); [reflexivity |].
      now apply IH.
Qed.

Lemma mem_getitem_iff {V} (k : string) (d : list (string * V)) :
  Dict.mem k d = false -> Dict.getitem k d = Raise (KeyError k).
Proof.
  unfold Dict.mem. induction d as [| [k1 v1] d IH]; simpl.
  - reflexivity.
  - destruct (String.eqb k k1); simpl; [discriminate | exact IH].
Qed.

Lemma mem_app {V} (k : string) (d1 d2 : list (string * V)) :
  Dict.mem k (d1 ++ d2) = (Dict.mem k d1 || Dict.mem k d2)%bool.
Proof. unfold Dict.mem. apply existsb_app. Qed.

Lemma keys_app {V} (d1 d2 : list (string * V)) :
  Dict.keys (d1 ++ d2) = Dict.keys d1 ++ Dict.keys d2.
Proof. unfold Dict.keys. apply map_app. Qed.

Lemma mem_true_keys {V} (k : string) (d : list (string * V)) :
  Dict.mem k d = true -> In k (Dict.keys d).
Proof. rewrite mem_keys. apply contains_true_iff. Qed.

Lemma not_in_keys_mem {V} (k : string) (d : list (string * V)) :
  ~ In k (Dict.keys d) -> Dict.mem k d = false.
Proof. rewrite mem_keys. apply contains_false_iff. Qed.

Lemma delitem_setitem_new {V} (k : string) (v : V) (d : list (string * V)) :
  Dict.mem k d = false -> Dict.delitem k (Dict.setitem k v d) = Ok d.
Proof.
  unfold Dict.mem. induction d as [| [k1 v1] d IH]; simpl.
  - now rewrite String.eqb_refl.
  - destruct (String.eqb k k1) eqn:Hk; simpl; [discriminate |].
    intros H. rewrite Hk, (IH H). reflexivity.
Qed.

Lemma getitem_In {V} (k : string) (v : V) (d : list (string * V)) :
  Dict.getitem k d = Ok v -> In (k, v) d.
Proof.
  induction d as [| [k1 v1] d IH]; simpl.
  - discriminate.
  - destruct (String.eqb k k1) eqn:Hk.
    + apply String.eqb_eq in Hk. subst k1. intros H. injection H as <-. now left.
    + intros H. right. now apply IH.
Qed.

Lemma In_getitem {V} (k : string) (v : V) (d : list (string * V)) :
  NoDup (Dict.keys d) -> In (k, v) d -> Dict.getitem k d = Ok v.
Proof.
  induction d as [| [k1 v1] d IH]; simpl; intros Hnd Hin.
  - destruct Hin.
  - inversion Hnd as [| ? ? Hk1 Hnd']; subst.
    destruct Hin as [Heq | Hin].
    + injection Heq as -> ->. now rewrite String.eqb_refl.
    + destruct (String.eqb k k1) eqn:Hk.
      * apply String.eqb_eq in Hk. subst k1. exfalso. apply Hk1.
        change k with (fst (k, v)). now apply in_map.
      * now apply IH.
Qed.

(** ** The invariant of a registry *)

Lemma validate_Ok_true (skill : BaseSkill) (b : bool) :
  validate skill = Ok b -> b = true.
Proof.
  unfold validate.
  destruct (negb (Py.str_truthy (name (metadata skill)))); [discriminate |].
  destruct (negb (Py.str_truthy (description (metadata skill)))); [discriminate |].
  destruct (negb (Py.list_truthy (get_tools skill))); [discriminate |].
  destruct (negb (tool_truthy (get_loader_tool skill))); [discriminate |].
  intros H. now injection H.
Qed.

Lemma coherent_init : coherent Registry.init.
Proof. repeat split; constructor. Qed.

Lemma register_coherent (skill : BaseSkill) (self : SkillRegistry) :
  coherent self -> coherent (snd (register skill self)).
Proof.
  intros [Hnd [Hcache Hall]]. unfold register.
  destruct (validate skill) as [b | e] eqn:Hv; simpl; [| now repeat split].
  pose proof (validate_Ok_true _ _ Hv) as ->.
  repeat split; simpl.
  - rewrite setitem_keys_eq.
    destruct (Dict.mem (name (metadata skill)) (_skills self)) eqn:Hmem;
      [exact Hnd |].
    apply NoDup_app; [exact Hnd | repeat constructor; intros [] |].
    intros a Ha [<- | []]. now apply (mem_false_keys _ _ Hmem).
  - rewrite Hcache. apply (setitem_map metadata).
  - apply setitem_Forall; [now split | exact Hall].
Qed.

Lemma unregister_coherent (skill_name : string) (self : SkillRegistry) :
  coherent self -> coherent (snd (unregister skill_name self)).
Proof.
  intros [Hnd [Hcache Hall]]. unfold unregister.
  destruct (Dict.mem skill_name (_skills self)) eqn:Hmem; [| now repeat split].
  destruct (mem_delitem _ _ Hmem) as [skills' Hdel]. rewrite Hdel. simpl.
  rewrite Hcache, (delitem_map metadata), Hdel. simpl.
  destruct (delitem_split _ _ _ Hdel) as [d1 [v [d2 [Hd [Hd' Hnin]]]]].
  repeat split; simpl.
  - rewrite Hd in Hnd. rewrite Hd'. rewrite keys_app in *. simpl in Hnd.
    now apply NoDup_remove_1 in Hnd.
  - rewrite Hd in Hall. rewrite Hd'. apply Forall_app in Hall.
    destruct Hall as [H1 H2]. apply Forall_app. split; [exact H1 |].
    now inversion H2.
Qed.

Lemma apply_op_coherent (op : RegistryOp) (self : SkillRegistry) :
  coherent self -> coherent (apply_op op self).
Proof.
  destruct op; [apply register_coherent | apply unregister_coherent].
Qed.

Lemma run_coherent (ops : list RegistryOp) (self : SkillRegistry) :
  coherent self -> coherent (run ops self).
Proof.
  unfold run. revert self. induction ops as [| op ops IH]; intros self H; simpl.
  - exact H.
  - apply IH. now apply apply_op_coherent.
Qed.

Lemma reachable_coherent (self : SkillRegistry) :
  reachable self -> coherent self.
Proof. intros [ops ->]. apply run_coherent, coherent_init. Qed.

Lemma run_app (ops1 ops2 : list RegistryOp) (self : SkillRegistry) :
  run (ops1 ++ ops2) self = run ops2 (run ops1 self).
Proof. unfold run. apply fold_left_app. Qed.

Lemma reachable_register (skill : BaseSkill) (self : SkillRegistry) :
  reachable self -> reachable (snd (register skill self)).
Proof.
  intros [ops ->]. exists (ops ++ [OpRegister skill]). now rewrite run_app.
Qed.

Lemma reachable_unregister (skill_name : string) (self : SkillRegistry) :
  reachable self -> reachable (snd (unregister skill_name self)).
Proof.
  intros [ops ->]. exists (ops ++ [OpUnregister skill_name]). now rewrite run_app.
Qed.

Lemma coherent_same_keys (self : SkillRegistry) :
  coherent self -> same_keys self.
Proof.
  intros [_ [Hcache _]]. unfold same_keys, Dict.keys. rewrite Hcache, map_map.
  reflexivity.
Qed.

(** ** Lookups *)

Lemma getitem_map {V W} (g : V -> W) (k : string) (d : list (string * V)) :
  Dict.getitem k (map (fun kv => (fst kv, g (snd kv))) d)
  = (v <- Dict.getitem k d ;; Ok (g v)).
Proof.
  induction d as [| [k1 v1] d IH]; simpl.
  - reflexivity.
  - destruct (String.eqb k k1); [reflexivity | exact IH].
Qed.

Lemma mem_map {V W} (g : V -> W) (k : string) (d : list (string * V)) :
  Dict.mem k (map (fun kv => (fst kv, g (snd kv))) d) = Dict.mem k d.
Proof.
  rewrite !mem_keys. unfold Dict.keys. now rewrite map_map.
Qed.

Lemma coherent_get_metadata (self : SkillRegistry) (n : string) :
  coherent self ->
  get_metadata n self = (skill <- get n self ;; Ok (metadata skill)).
Proof.
  intros [_ [Hcache _]]. unfold get_metadata, get.
  rewrite Hcache, (mem_map metadata), (getitem_map metadata).
  now destruct (Dict.mem n (_skills self)).
Qed.

Lemma reachable_reg_X : reachable Samples.reg_X.
Proof. exists [OpRegister Samples.X]. reflexivity. Defined.

Lemma reachable_reg_alpha_beta : reachable Samples.reg_alpha_beta.
Proof.
  exists [OpRegister Samples.alpha; OpRegister Samples.beta]. reflexivity.
Defined.

(** X1. In a registry built by [register] and [unregister] calls the
    metadata cache agrees with the skill store: [get_metadata(n)]
    returns the metadata of the skill [get(n)] returns, and raises the
    same [SkillNotFoundError] when [get(n)] raises. *)
Theorem X1_get_metadata_agrees_with_get (self : SkillRegistry) (n : string) :
  reachable self ->
  get_metadata n self = (skill <- get n self ;; Ok (metadata skill)).
Proof. intros H. now apply coherent_get_metadata, reachable_coherent. Qed.

Lemma X1_get_metadata_agrees_with_get_witness :
  get_metadata "X" Samples.reg_X
  = (skill <- get "X" Samples.reg_X ;; Ok (metadata skill)).
Proof.
  apply (X1_get_metadata_agrees_with_get Samples.reg_X "X").
  exists [OpRegister Samples.X]. reflexivity.
Defined.

(** X2. In a registry built by [register] and [unregister] calls every
    skill that [get(n)] returns passes [validate] and carries the name
    [n] it is stored under, and [list_skills()] lists no name twice. *)
Theorem X2_registered_skills_are_valid
    (self : SkillRegistry) (n : string) (skill : BaseSkill) :
  reachable self ->
  get n self = Ok skill ->
  name (metadata skill) = n
  /\ validate skill = Ok true
  /\ NoDup (list_skills None self).
Proof.
  intros Hr Hget. destruct (reachable_coherent _ Hr) as [Hnd [_ Hall]].
  unfold get in Hget.
  destruct (Dict.mem n (_skills self)); simpl in Hget; [| discriminate].
  apply getitem_In in Hget. rewrite Forall_forall in Hall.
  destruct (Hall _ Hget) as [Hname Hvalid]. simpl in Hname, Hvalid.
  repeat split; [now symmetry | exact Hvalid | exact Hnd].
Qed.

Lemma X2_registered_skills_are_valid_witness :
  name (metadata Samples.X) = "X"%string
  /\ validate Samples.X = Ok true
  /\ NoDup (list_skills None Samples.reg_X).
Proof.
  apply (X2_registered_skills_are_valid Samples.reg_X "X" Samples.X).
  - exists [OpRegister Samples.X]. reflexivity.
  - reflexivity.
Defined.

(** X3. After [register(skill)] of a valid skill, [get] and
    [get_metadata] of its name return that skill and its metadata, and
    the lookups of every other name are as before. *)
Theorem X3_register_then_get (skill : BaseSkill) (self : SkillRegistry) :
  validate skill = Ok true ->
  get (name (metadata skill)) (snd (register skill self)) = Ok skill
  /\ get_metadata (name (metadata skill)) (snd (register skill self))
     = Ok (metadata skill)
  /\ (forall n, n <> name (metadata skill) ->
        get n (snd (register skill self)) = get n self
        /\ get_metadata n (snd (register skill self)) = get_metadata n self).
Proof.
  intros Hv. unfold register. rewrite Hv. unfold get, get_metadata. simpl.
  rewrite !setitem_mem, String.eqb_refl, !getitem_setitem_eq. simpl.
  repeat split.
  - rewrite setitem_mem. apply String.eqb_neq in H. rewrite H. simpl.
    now rewrite getitem_setitem_ne by now apply String.eqb_neq.
  - rewrite setitem_mem. apply String.eqb_neq in H. rewrite H. simpl.
    now rewrite getitem_setitem_ne by now apply String.eqb_neq.
Qed.

Lemma X3_register_then_get_witness :
  get (name (metadata Samples.beta))
    (snd (register Samples.beta Samples.reg_X)) = Ok Samples.beta
  /\ get_metadata (name (metadata Samples.beta))
       (snd (register Samples.beta Samples.reg_X))
     = Ok (metadata Samples.beta)
  /\ (forall n, n <> name (metadata Samples.beta) ->
        get n (snd (register Samples.beta Samples.reg_X)) = get n Samples.reg_X
        /\ get_metadata n (snd (register Samples.beta Samples.reg_X))
           = get_metadata n Samples.reg_X).
Proof.
  apply (X3_register_then_get Samples.beta Samples.reg_X). reflexivity.
Defined.

(** X4. [register] of a valid skill keeps the registration order: a name
    already registered keeps its place in [list_skills()] and the number
    of skills, a new name goes last and the number grows by one. *)
Theorem X4_register_keeps_order (skill : BaseSkill) (self : SkillRegistry) :
  validate skill = Ok true ->
  list_skills None (snd (register skill self))
  = (if Registry.contains (name (metadata skill)) self
     then list_skills None self
     else list_skills None self ++ [name (metadata skill)])
  /\ len (snd (register skill self))
     = (if Registry.contains (name (metadata skill)) self
        then len self else S (len self)).
Proof.
  intros Hv.
  assert (Hkeys : list_skills None (snd (register skill self))
                  = (if Registry.contains (name (metadata skill)) self
                     then list_skills None self
                     else list_skills None self ++ [name (metadata skill)])).
  { unfold register. rewrite Hv. unfold list_skills, Registry.contains. simpl.
    apply setitem_keys_eq. }
  split; [exact Hkeys |].
  assert (Hlen : forall r, len r = List.length (list_skills None r)).
  { intros r. unfold len, list_skills, Dict.keys. now rewrite length_map. }
  rewrite !Hlen, Hkeys.
  destruct (Registry.contains (name (metadata skill)) self); [reflexivity |].
  rewrite length_app. simpl. lia.
Qed.

Lemma X4_register_keeps_order_witness :
  list_skills None (snd (register Samples.alpha Samples.reg_alpha_beta))
  = (if Registry.contains (name (metadata Samples.alpha)) Samples.reg_alpha_beta
     then list_skills None Samples.reg_alpha_beta
     else list_skills None Samples.reg_alpha_beta
          ++ [name (metadata Samples.alpha)])
  /\ len (snd (register Samples.alpha Samples.reg_alpha_beta))
     = (if Registry.contains (name (metadata Samples.alpha)) Samples.reg_alpha_beta
        then len Samples.reg_alpha_beta else S (len Samples.reg_alpha_beta)).
Proof.
  apply (X4_register_keeps_order Samples.alpha Samples.reg_alpha_beta).
  reflexivity.
Defined.

Lemma get_not_contained (self : SkillRegistry) (n : string) :
  Registry.contains n self = false -> get n self = Raise (SkillNotFoundError n).
Proof. unfold Registry.contains, get. now intros ->. Qed.

Lemma get_contained (self : SkillRegistry) (n : string) :
  Registry.contains n self = true -> get n self = Dict.getitem n (_skills self).
Proof. unfold Registry.contains, get. now intros ->. Qed.

(** X5. In a registry built by [register] and [unregister] calls,
    [unregister(n)] raises nothing; afterwards [get(n)] and
    [get_metadata(n)] raise [SkillNotFoundError], every other lookup is
    as before, and [list_skills()] is the former list without [n]. *)
Theorem X5_unregister_removes_only_that_name (self : SkillRegistry) (n : string) :
  reachable self ->
  fst (unregister n self) = Ok tt
  /\ get n (snd (unregister n self)) = Raise (SkillNotFoundError n)
  /\ get_metadata n (snd (unregister n self)) = Raise (SkillNotFoundError n)
  /\ (forall m, m <> n ->
        get m (snd (unregister n self)) = get m self
        /\ get_metadata m (snd (unregister n self)) = get_metadata m self)
  /\ list_skills None (snd (unregister n self))
     = remove string_dec n (list_skills None self).
Proof.
  intros Hr. pose proof (reachable_coherent _ Hr) as Hc.
  pose proof (unregister_coherent n self Hc) as Hc'.
  assert (Hget : fst (unregister n self) = Ok tt
                 /\ get n (snd (unregister n self)) = Raise (SkillNotFoundError n)
                 /\ (forall m, m <> n ->
                       get m (snd (unregister n self)) = get m self)
                 /\ list_skills None (snd (unregister n self))
                    = remove string_dec n (list_skills None self)).
  { destruct Hc as [Hnd [Hcache _]]. unfold unregister.
    destruct (Dict.mem n (_skills self)) eqn:Hmem.
    - destruct (mem_delitem _ _ Hmem) as [skills' Hdel]. rewrite Hdel. simpl.
      rewrite Hcache, (delitem_map metadata), Hdel. simpl.
      destruct (delitem_split _ _ _ Hdel) as [d1 [v [d2 [Hd [Hd' Hn1]]]]].
      assert (Hn2 : ~ In n (Dict.keys d2)).
      { rewrite Hd, keys_app in Hnd. simpl in Hnd.
        apply NoDup_remove_2 in Hnd. intros Hin. apply Hnd.
        apply in_or_app. now right. }
      assert (Hgone : Dict.mem n skills' = false).
      { rewrite Hd', mem_app, (not_in_keys_mem _ _ Hn1), (not_in_keys_mem _ _ Hn2).
        reflexivity. }
      repeat split.
      + unfold get. simpl. now rewrite Hgone.
      + intros m Hm. unfold get. simpl.
        rewrite (getitem_delitem_ne _ _ _ _ Hdel Hm).
        rewrite !mem_keys, Hd, Hd', !keys_app. simpl.
        unfold Py.contains. rewrite !existsb_app. simpl.
        apply String.eqb_neq in Hm. now rewrite Hm.
      + unfold list_skills. simpl. rewrite Hd, Hd', !keys_app. simpl.
        rewrite remove_app. simpl.
        destruct (string_dec n n) as [_ | Hne]; [| contradiction].
        now rewrite !notin_remove by assumption.
    - repeat split.
      + now apply get_not_contained.
      + unfold list_skills. simpl. symmetry. apply notin_remove.
        now apply mem_false_keys. }
  destruct Hget as [H1 [H2 [H3 H4]]].
  repeat split; try assumption.
  - rewrite (coherent_get_metadata _ _ Hc'), H2. reflexivity.
  - now apply H3.
  - rewrite (coherent_get_metadata _ _ Hc'), (coherent_get_metadata _ _ Hc).
    now rewrite H3.
Qed.

Lemma X5_unregister_removes_only_that_name_witness :
  fst (unregister "alpha" Samples.reg_alpha_beta) = Ok tt
  /\ get "alpha" (snd (unregister "alpha" Samples.reg_alpha_beta))
     = Raise (SkillNotFoundError "alpha")
  /\ get_metadata "alpha" (snd (unregister "alpha" Samples.reg_alpha_beta))
     = Raise (SkillNotFoundError "alpha")
  /\ (forall m, m <> "alpha"%string ->
        get m (snd (unregister "alpha" Samples.reg_alpha_beta))
        = get m Samples.reg_alpha_beta
        /\ get_metadata m (snd (unregister "alpha" Samples.reg_alpha_beta))
           = get_metadata m Samples.reg_alpha_beta)
  /\ list_skills None (snd (unregister "alpha" Samples.reg_alpha_beta))
     = remove string_dec "alpha"%string (list_skills None Samples.reg_alpha_beta).
Proof.
  apply (X5_unregister_removes_only_that_name Samples.reg_alpha_beta "alpha").
  exists [OpRegister Samples.alpha; OpRegister Samples.beta]. reflexivity.
Defined.

(** X6. Registering a valid skill under a new name and unregistering
    that name again gives back the registry as it was. *)
Theorem X6_register_unregister_round_trip
    (skill : BaseSkill) (self : SkillRegistry) :
  reachable self ->
  validate skill = Ok true ->
  Registry.contains (name (metadata skill)) self = false ->
  unregister (name (metadata skill)) (snd (register skill self)) = (Ok tt, self).
Proof.
  intros Hr Hv Hnew. pose proof (reachable_coherent _ Hr) as Hc.
  pose proof (coherent_same_keys _ Hc) as Hk. unfold same_keys in Hk.
  unfold Registry.contains in Hnew.
  assert (Hnew' : Dict.mem (name (metadata skill)) (_metadata_cache self) = false).
  { rewrite mem_keys, <- Hk, <- mem_keys. exact Hnew. }
  unfold register. rewrite Hv. unfold unregister. simpl.
  rewrite setitem_mem, String.eqb_refl. simpl.
  rewrite (delitem_setitem_new _ _ _ Hnew). simpl.
  rewrite (delitem_setitem_new _ _ _ Hnew'). now destruct self.
Qed.

Lemma X6_register_unregister_round_trip_witness :
  unregister (name (metadata Samples.beta))
    (snd (register Samples.beta Samples.reg_X))
  = (Ok tt, Samples.reg_X).
Proof.
  apply (X6_register_unregister_round_trip Samples.beta Samples.reg_X).
  - exists [OpRegister Samples.X]. reflexivity.
  - reflexivity.
  - reflexivity.
Defined.

(** X7. [get] and [get_metadata] are strict: for a name in the
    dictionary they return a stored value, and for any other name they
    raise [SkillNotFoundError] with that name. What they raise is never
    the plain [KeyError] of the dictionary lookup; it is a [SkillError]
    that is also a [KeyError], as [exceptions.py] derives the class from
    both, so [except KeyError] catches it, and its message is
    ["Skill not found: "] followed by the name. *)
Theorem X7_lookups_are_strict (self : SkillRegistry) (n : string) :
  ((exists skill, get n self = Ok skill /\ In (n, skill) (_skills self))
   \/ (get n self = Raise (SkillNotFoundError n)
       /\ ~ In n (list_skills None self)))
  /\ ((exists meta, get_metadata n self = Ok meta
                    /\ In (n, meta) (_metadata_cache self))
      \/ (get_metadata n self = Raise (SkillNotFoundError n)
          /\ ~ In n (Dict.keys (_metadata_cache self))))
  /\ (forall e,
        get n self = Raise e \/ get_metadata n self = Raise e ->
        e = SkillNotFoundError n
        /\ e <> KeyError n
        /\ is_KeyError e = true
        /\ is_SkillError e = true
        /\ is_Exception e = true
        /\ message e = ("Skill not found: " ++ n)%string).
Proof.
  unfold get, get_metadata, list_skills. split; [| split].
  - destruct (Dict.mem n (_skills self)) eqn:Hmem; simpl.
    + left. destruct (mem_getitem _ _ Hmem) as [v Hv]. exists v.
      split; [exact Hv | now apply getitem_In].
    + right. split; [reflexivity | now apply mem_false_keys].
  - destruct (Dict.mem n (_metadata_cache self)) eqn:Hmem; simpl.
    + left. destruct (mem_getitem _ _ Hmem) as [v Hv]. exists v.
      split; [exact Hv | now apply getitem_In].
    + right. split; [reflexivity | now apply mem_false_keys].
  - intros e He.
    assert (Heq : e = SkillNotFoundError n).
    { destruct He as [He | He].
      - destruct (Dict.mem n (_skills self)) eqn:Hmem; simpl in He.
        + destruct (mem_getitem _ _ Hmem) as [v Hv]. rewrite Hv in He.
          discriminate He.
        + now injection He as <-.
      - destruct (Dict.mem n (_metadata_cache self)) eqn:Hmem; simpl in He.
        + destruct (mem_getitem _ _ Hmem) as [v Hv]. rewrite Hv in He.
          discriminate He.
        + now injection He as <-. }
    subst e. repeat split. discriminate.
Qed.

(** ** Listing and assembling *)

Lemma map_fst_filter {V} (f : V -> bool) (h : string -> bool)
    (d : list (string * V)) :
  (forall kv, In kv d -> h (fst kv) = f (snd kv)) ->
  map fst (filter (fun kv => f (snd kv)) d) = filter h (map fst d).
Proof.
  induction d as [| kv d IH]; intros H; simpl.
  - reflexivity.
  - rewrite (H kv) by now left.
    destruct (f (snd kv)); simpl; rewrite IH; auto; intros; apply H; now right.
Qed.

(** X8. In a registry built by [register] and [unregister] calls,
    [list_skills(filter_fn)] is [list_skills()] restricted, in the same
    order, to the names whose cached metadata satisfies [filter_fn]. *)
Theorem X8_list_skills_filters_by_metadata
    (self : SkillRegistry) (f : SkillMetadata -> bool) :
  reachable self ->
  list_skills (Some f) self
  = filter (fun n => match get_metadata n self with
                     | Ok meta => f meta
                     | Raise _ => false
                     end)
           (list_skills None self).
Proof.
  intros Hr. pose proof (reachable_coherent _ Hr) as Hc.
  pose proof (coherent_same_keys _ Hc) as Hk. destruct Hc as [Hnd _].
  unfold list_skills. rewrite Hk. unfold Dict.keys.
  apply map_fst_filter. intros [k meta] Hin. simpl.
  unfold get_metadata. rewrite Hk in Hnd.
  rewrite (In_getitem _ _ _ Hnd Hin).
  assert (Hmem : Dict.mem k (_metadata_cache self) = true).
  { apply keys_mem. change k with (fst (k, meta)). now apply in_map. }
  now rewrite Hmem.
Qed.

Lemma X8_list_skills_filters_by_metadata_witness :
  list_skills (Some (fun meta => Py.contains "math" (tags meta)))
    Samples.reg_alpha_beta
  = filter (fun n => match get_metadata n Samples.reg_alpha_beta with
                     | Ok meta => Py.contains "math" (tags meta)
                     | Raise _ => false
                     end)
           (list_skills None Samples.reg_alpha_beta).
Proof.
  apply (X8_list_skills_filters_by_metadata Samples.reg_alpha_beta
           (fun meta => Py.contains "math" (tags meta))).
  exists [OpRegister Samples.alpha; OpRegister Samples.beta]. reflexivity.
Defined.

Lemma loader_loop_closed (self : SkillRegistry) (skill_names : list string) :
  (forall n, In n skill_names -> Dict.mem n (_skills self) = true) ->
  forall loaders,
    loader_loop self skill_names loaders
    = Ok (loaders ++ flat_map (of_name entry_loader self) skill_names).
Proof.
  induction skill_names as [| n rest IH]; intros Hall loaders; simpl.
  - now rewrite app_nil_r.
  - destruct (mem_getitem n (_skills self)) as [skill Hskill].
    { apply Hall. now left. }
    unfold of_name at 1. rewrite Hskill. simpl. unfold entry_loader.
    destruct (enabled (metadata skill)); rewrite IH by (intros; apply Hall; now right).
    + now rewrite <- app_assoc.
    + reflexivity.
Qed.

Lemma all_tools_loop_closed (self : SkillRegistry) (skill_names : list string) :
  (forall n, In n skill_names -> Dict.mem n (_skills self) = true) ->
  forall all_tools,
    all_tools_loop self skill_names all_tools
    = Ok (all_tools ++ flat_map (of_name entry_all self) skill_names).
Proof.
  induction skill_names as [| n rest IH]; intros Hall acc; simpl.
  - now rewrite app_nil_r.
  - destruct (mem_getitem n (_skills self)) as [skill Hskill].
    { apply Hall. now left. }
    unfold of_name at 1. rewrite Hskill. simpl. unfold entry_all.
    destruct (enabled (metadata skill)); rewrite IH by (intros; apply Hall; now right).
    + rewrite <- !app_assoc. reflexivity.
    + reflexivity.
Qed.

Lemma unlocked_loop_closed (self : SkillRegistry) (skill_names : list string) :
  forall tools,
    unlocked_loop self skill_names tools
    = Ok (tools ++ flat_map (of_name entry_tools self) skill_names).
Proof.
  induction skill_names as [| n rest IH]; intros tools; simpl.
  - now rewrite app_nil_r.
  - unfold of_name at 1. destruct (Dict.mem n (_skills self)) eqn:Hmem.
    + destruct (mem_getitem _ _ Hmem) as [skill Hskill]. rewrite Hskill. simpl.
      unfold entry_tools. destruct (enabled (metadata skill)); rewrite IH.
      * now rewrite <- app_assoc.
      * reflexivity.
    + rewrite (mem_getitem_iff _ _ Hmem). simpl. apply IH.
Qed.

Lemma get_tools_for_skills_closed (skill_names : list string) (self : SkillRegistry) :
  get_tools_for_skills skill_names self
  = Ok (flat_map (of_name entry_loader self) (list_skills None self)
        ++ flat_map (of_name entry_tools self) skill_names).
Proof.
  unfold get_tools_for_skills, get_all_loader_tools.
  rewrite loader_loop_closed by (intros n; apply keys_mem). simpl.
  apply unlocked_loop_closed.
Qed.

Lemma get_Ok_iff (self : SkillRegistry) (n : string) (skill : BaseSkill) :
  get n self = Ok skill <-> Dict.getitem n (_skills self) = Ok skill.
Proof.
  unfold get. destruct (Dict.mem n (_skills self)) eqn:Hmem; simpl.
  - reflexivity.
  - rewrite (mem_getitem_iff _ _ Hmem). split; discriminate.
Qed.

Lemma in_of_name (g : BaseSkill -> list BaseTool) (self : SkillRegistry)
    (n : string) (t : BaseTool) :
  In t (of_name g self n)
  <-> exists skill, get n self = Ok skill /\ In t (g skill).
Proof.
  unfold of_name. split.
  - destruct (Dict.getitem n (_skills self)) as [skill | e] eqn:Hg; [| intros []].
    intros Hin. exists skill. split; [now apply get_Ok_iff | exact Hin].
  - intros [skill [Hget Hin]]. apply get_Ok_iff in Hget. now rewrite Hget.
Qed.

(** X9. [get_tools_for_skills] never raises, and a tool is in its result
    exactly when it is the loader of a registered, enabled skill, or one
    of the tools of a registered, enabled skill whose name is in
    [skill_names]. In particular the loader of every enabled skill is
    offered whatever [skill_names] holds, and a disabled skill
    contributes nothing even when its name is listed. *)
Theorem X9_get_tools_for_skills_offers_exactly
    (skill_names : list string) (self : SkillRegistry) :
  exists tools,
    get_tools_for_skills skill_names self = Ok tools
    /\ forall t,
         In t tools
         <-> exists n skill,
               get n self = Ok skill
               /\ enabled (metadata skill) = true
               /\ (t = get_loader_tool skill
                   \/ (In n skill_names /\ In t (get_tools skill))).
Proof.
  eexists. split; [apply get_tools_for_skills_closed |].
  intros t. rewrite in_app_iff, !in_flat_map. split.
  - intros [[n [Hn Hin]] | [n [Hn Hin]]]; apply in_of_name in Hin;
      destruct Hin as [skill [Hget Hin]]; exists n, skill.
    + unfold entry_loader in Hin.
      destruct (enabled (metadata skill)); [| destruct Hin].
      destruct Hin as [<- | []]. auto.
    + unfold entry_tools in Hin.
      destruct (enabled (metadata skill)); [| destruct Hin]. auto.
  - intros [n [skill [Hget [Hen [-> | [Hn Hin]]]]]].
    + left. exists n. split.
      * unfold list_skills. apply mem_true_keys. apply get_Ok_iff in Hget.
        now apply getitem_mem in Hget.
      * apply in_of_name. exists skill. split; [exact Hget |].
        unfold entry_loader. rewrite Hen. now left.
    + right. exists n. split; [exact Hn |].
      apply in_of_name. exists skill. split; [exact Hget |].
      unfold entry_tools. now rewrite Hen.
Qed.

Lemma filter_cache_entries (f : SkillMetadata -> bool)
    (d : list (string * BaseSkill)) :
  map fst (filter (fun name_meta => f (snd name_meta))
             (map (fun kv => (fst kv, metadata (snd kv))) d))
  = map fst (filter (fun kv => f (metadata (snd kv))) d).
Proof.
  induction d as [| kv d IH]; simpl.
  - reflexivity.
  - destruct (f (metadata (snd kv))); simpl; now rewrite IH.
Qed.

Lemma filter_all {A} (l : list A) : filter (fun _ => true) l = l.
Proof. induction l as [| a l IH]; simpl; [reflexivity | now rewrite IH]. Qed.

Lemma list_skills_entries (filter_fn : option (SkillMetadata -> bool))
    (self : SkillRegistry) :
  coherent self ->
  list_skills filter_fn self
  = map fst (filter (fun kv => passes filter_fn (metadata (snd kv))) (_skills self)).
Proof.
  intros [_ [Hcache _]]. unfold list_skills, passes.
  destruct filter_fn as [f |].
  - rewrite Hcache. apply filter_cache_entries.
  - now rewrite filter_all.
Qed.

Lemma flat_map_of_name (g : BaseSkill -> list BaseTool) (self : SkillRegistry)
    (l : list (string * BaseSkill)) :
  NoDup (Dict.keys (_skills self)) ->
  (forall kv, In kv l -> In kv (_skills self)) ->
  flat_map (of_name g self) (map fst l) = flat_map (fun kv => g (snd kv)) l.
Proof.
  intros Hnd. induction l as [| [k v] l IH]; intros Hin; simpl.
  - reflexivity.
  - unfold of_name at 1.
    rewrite (In_getitem k v _ Hnd) by (apply Hin; now left).
    f_equal. apply IH. intros kv H. apply Hin. now right.
Qed.

Lemma flat_map_filter {A B} (p : A -> bool) (h : A -> list B) (l : list A) :
  flat_map h (filter p l) = flat_map (fun a => if p a then h a else []) l.
Proof.
  induction l as [| a l IH]; simpl.
  - reflexivity.
  - destruct (p a); simpl; now rewrite IH.
Qed.

Lemma assembled_by_entries (g : BaseSkill -> list BaseTool)
    (filter_fn : option (SkillMetadata -> bool)) (self : SkillRegistry) :
  coherent self ->
  flat_map (of_name g self) (list_skills filter_fn self)
  = flat_map (fun kv => if passes filter_fn (metadata (snd kv))
                        then g (snd kv) else [])
             (_skills self).
Proof.
  intros Hc. rewrite (list_skills_entries _ _ Hc). destruct Hc as [Hnd _].
  rewrite (flat_map_of_name g self _ Hnd).
  - apply flat_map_filter.
  - intros kv Hin. apply filter_In in Hin. tauto.
Qed.

Lemma list_skills_registered (filter_fn : option (SkillMetadata -> bool))
    (self : SkillRegistry) (n : string) :
  coherent self -> In n (list_skills filter_fn self) ->
  Dict.mem n (_skills self) = true.
Proof.
  intros Hc. rewrite (list_skills_entries _ _ Hc). intros Hin.
  apply in_map_iff in Hin. destruct Hin as [kv [<- Hin]].
  apply filter_In in Hin. apply keys_mem. apply in_map. tauto.
Qed.

Lemma assembly_closed
    (filter_fn : option (SkillMetadata -> bool)) (self : SkillRegistry) :
  coherent self ->
  get_all_loader_tools filter_fn self
  = Ok (flat_map (fun kv => if passes filter_fn (metadata (snd kv))
                            then entry_loader (snd kv) else [])
                 (_skills self))
  /\ get_all_tools filter_fn self
     = Ok (flat_map (fun kv => if passes filter_fn (metadata (snd kv))
                               then entry_all (snd kv) else [])
                    (_skills self)).
Proof.
  intros Hc. unfold get_all_loader_tools, get_all_tools. split.
  - rewrite loader_loop_closed by (intros n; now apply list_skills_registered).
    simpl. now rewrite (assembled_by_entries entry_loader).
  - rewrite all_tools_loop_closed by (intros n; now apply list_skills_registered).
    simpl. now rewrite (assembled_by_entries entry_all).
Qed.

(** X10. In a registry built by [register] and [unregister] calls,
    [get_all_loader_tools(filter_fn)] and [get_all_tools(filter_fn)]
    raise nothing, with or without a filter, and go through the
    registered skills in registration order: each enabled skill whose
    metadata passes the filter contributes its loader, respectively its
    loader followed by its tools; every other skill contributes
    nothing. *)
Theorem X10_assembly_in_registration_order
    (filter_fn : option (SkillMetadata -> bool)) (self : SkillRegistry) :
  reachable self ->
  get_all_loader_tools filter_fn self
  = Ok (flat_map (fun kv => if passes filter_fn (metadata (snd kv))
                            then entry_loader (snd kv) else [])
                 (_skills self))
  /\ get_all_tools filter_fn self
     = Ok (flat_map (fun kv => if passes filter_fn (metadata (snd kv))
                               then entry_all (snd kv) else [])
                    (_skills self)).
Proof. intros Hr. now apply assembly_closed, reachable_coherent. Qed.

Lemma X10_assembly_in_registration_order_witness :
  get_all_loader_tools (Some (fun meta => Py.contains "text" (tags meta)))
    Samples.reg_alpha_beta
  = Ok (flat_map
          (fun kv =>
             if passes (Some (fun meta => Py.contains "text" (tags meta)))
                  (metadata (snd kv))
             then entry_loader (snd kv) else [])
          (_skills Samples.reg_alpha_beta))
  /\ get_all_tools (Some (fun meta => Py.contains "text" (tags meta)))
       Samples.reg_alpha_beta
     = Ok (flat_map
             (fun kv =>
                if passes (Some (fun meta => Py.contains "text" (tags meta)))
                     (metadata (snd kv))
                then entry_all (snd kv) else [])
             (_skills Samples.reg_alpha_beta)).
Proof.
  apply (X10_assembly_in_registration_order
           (Some (fun meta => Py.contains "text" (tags meta)))
           Samples.reg_alpha_beta).
  exists [OpRegister Samples.alpha; OpRegister Samples.beta]. reflexivity.
Defined.

Lemma flat_map_split_perm {A B} (f g : A -> list B) (l : list A) :
  Permutation (flat_map (fun a => f a ++ g a) l) (flat_map f l ++ flat_map g l).
Proof.
  induction l as [| a l IH]; simpl.
  - constructor.
  - rewrite <- !app_assoc. apply Permutation_app_head.
    rewrite IH. rewrite !app_assoc. apply Permutation_app_tail.
    apply Permutation_app_comm.
Qed.

(** X11. With every registered name unlocked, [get_tools_for_skills]
    offers the tools of [get_all_tools()], each as many times, in another
    order: all loaders first, then the tools, instead of skill by
    skill. *)
Theorem X11_all_unlocked_is_all_tools (self : SkillRegistry) :
  exists all_tools unlocked,
    get_all_tools None self = Ok all_tools
    /\ get_tools_for_skills (list_skills None self) self = Ok unlocked
    /\ Permutation all_tools unlocked.
Proof.
  do 2 eexists. split; [| split].
  - unfold get_all_tools. rewrite all_tools_loop_closed; [reflexivity |].
    intros n. apply keys_mem.
  - apply get_tools_for_skills_closed.
  - simpl. rewrite <- flat_map_split_perm.
    erewrite flat_map_ext; [reflexivity |].
    intros n. unfold of_name.
    destruct (Dict.getitem n (_skills self)) as [skill | e]; [| reflexivity].
    unfold entry_all, entry_loader, entry_tools.
    now destruct (enabled (metadata skill)).
Qed.

Lemma reachable_get_In (self : SkillRegistry) (n : string) (skill : BaseSkill) :
  coherent self -> (get n self = Ok skill <-> In (n, skill) (_skills self)).
Proof.
  intros [Hnd _]. rewrite get_Ok_iff. split.
  - apply getitem_In.
  - now apply In_getitem.
Qed.

(** X12. The tool list [create_skill_agent] hands to [create_agent]
    (step 6, [get_all_tools(filter_fn=combined_filter)]) holds exactly
    the loaders and tools of the registered, enabled skills whose
    visibility is allowed (when [filter_by_visibility] is set) and whose
    metadata passes the caller's filter, if one is given. *)
Theorem X12_agent_tools_respect_visibility
    (self : SkillRegistry) (filter_by_visibility : bool)
    (allowed_visibilities : list string)
    (filter_fn : option (SkillMetadata -> bool)) :
  reachable self ->
  exists all_tools,
    get_all_tools
      (Some (Config.combined_filter filter_by_visibility allowed_visibilities
               filter_fn)) self
    = Ok all_tools
    /\ forall t,
         In t all_tools
         <-> exists n skill,
               get n self = Ok skill
               /\ enabled (metadata skill) = true
               /\ (filter_by_visibility = true ->
                   In (visibility (metadata skill)) allowed_visibilities)
               /\ passes filter_fn (metadata skill) = true
               /\ (t = get_loader_tool skill \/ In t (get_tools skill)).
Proof.
  intros Hr. pose proof (reachable_coherent _ Hr) as Hc.
  eexists. split; [apply assembly_closed; exact Hc |].
  assert (Hpass : forall meta,
             Config.combined_filter filter_by_visibility allowed_visibilities
               filter_fn meta = true
             <-> (filter_by_visibility = true ->
                  In (visibility meta) allowed_visibilities)
                 /\ passes filter_fn meta = true).
  { intros meta. unfold Config.combined_filter, Config.visibility_filter, passes.
    destruct filter_fn as [f |], filter_by_visibility; simpl;
      rewrite ?andb_true_iff, ?contains_true_iff; intuition congruence. }
  intros t. rewrite in_flat_map. split.
  - intros [[n skill] [Hin Ht]]. cbn [passes snd] in Ht.
    destruct (Config.combined_filter _ _ _ (metadata skill)) eqn:Hp; [| destruct Ht].
    apply Hpass in Hp. destruct Hp as [Hvis Hf].
    unfold entry_all in Ht. destruct (enabled (metadata skill)) eqn:Hen; [| destruct Ht].
    exists n, skill. repeat split; try assumption.
    + now apply reachable_get_In.
    + destruct Ht as [<- | Ht]; auto.
  - intros [n [skill [Hget [Hen [Hvis [Hf Ht]]]]]].
    exists (n, skill). split; [now apply reachable_get_In |]. cbn [passes snd].
    assert (Hp : Config.combined_filter filter_by_visibility allowed_visibilities
                   filter_fn (metadata skill) = true) by (apply Hpass; now split).
    rewrite Hp. unfold entry_all. rewrite Hen.
    destruct Ht as [-> | Ht]; [now left | now right].
Qed.

Lemma X12_agent_tools_respect_visibility_witness :
  exists all_tools,
    get_all_tools (Some (Config.combined_filter true ["public"%string] None))
      Samples.reg_X
    = Ok all_tools
    /\ forall t,
         In t all_tools
         <-> exists n skill,
               get n Samples.reg_X = Ok skill
               /\ enabled (metadata skill) = true
               /\ (true = true ->
                   In (visibility (metadata skill)) ["public"%string])
               /\ passes None (metadata skill) = true
               /\ (t = get_loader_tool skill \/ In t (get_tools skill)).
Proof.
  apply (X12_agent_tools_respect_visibility Samples.reg_X true
           ["public"%string] None).
  exists [OpRegister Samples.X]. reflexivity.
Defined.

(** ** More on discovery *)



Lemma discover_loop_reachable (entries : list DirEntry) (module_name : string)
    (loaded_count : nat) (self : SkillRegistry) :
  reachable self ->
  reachable (snd (discover_loop entries module_name loaded_count self)).
Proof.
  revert loaded_count self.
  induction entries as [| entry rest IH]; intros c self Hr.
  - exact Hr.
  - rewrite discover_loop_cons.
    destruct (abort_of module_name entry); [exact Hr |].
    destruct (loaded_skill module_name entry); apply IH;
      [now apply reachable_register | exact Hr].
Qed.



Lemma register_valid_skills (skill : BaseSkill) (self : SkillRegistry) (b : bool) :
  validate skill = Ok b ->
  _skills (snd (register skill self))
  = Dict.setitem (name (metadata skill)) skill (_skills self).
Proof. intros Hv. unfold register. now rewrite Hv. Qed.

Lemma getitem_setitem {V} (k k' : string) (v : V) (d : list (string * V)) :
  Dict.getitem k' (Dict.setitem k v d)
  = if String.eqb k' k then Ok v else Dict.getitem k' d.
Proof.
  destruct (String.eqb k' k) eqn:Hk.
  - apply String.eqb_eq in Hk. subst k'. apply getitem_setitem_eq.
  - apply getitem_setitem_ne. now apply String.eqb_neq.
Qed.

Lemma getitem_discover_loop (entries : list DirEntry) (module_name : string)
    (loaded_count : nat) (self : SkillRegistry) (k : string) :
  Dict.getitem k (_skills (snd (discover_loop entries module_name loaded_count self)))
  = match latest_loaded module_name (processed module_name entries) k with
    | Some skill => Ok skill
    | None => Dict.getitem k (_skills self)
    end.
Proof.
  revert loaded_count self.
  induction entries as [| entry rest IH]; intros c self.
  - reflexivity.
  - rewrite discover_loop_cons. simpl processed.
    destruct (abort_of module_name entry); [reflexivity |].
    simpl latest_loaded.
    destruct (loaded_skill module_name entry) as [skill |] eqn:Hl.
    + rewrite IH.
      destruct (latest_loaded module_name (processed module_name rest) k);
        [reflexivity |].
      destruct (loaded_skill_valid _ _ _ Hl) as [b Hb].
      rewrite (register_valid_skills _ _ _ Hb), getitem_setitem.
      now destruct (String.eqb k (name (metadata skill))).
    + rewrite IH.
      now destruct (latest_loaded module_name (processed module_name rest) k).
Qed.

Lemma latest_loaded_name (module_name : string) (entries : list DirEntry)
    (k : string) (skill : BaseSkill) :
  latest_loaded module_name entries k = Some skill ->
  name (metadata skill) = k
  /\ exists entry, In entry entries /\ loaded_skill module_name entry = Some skill.
Proof.
  induction entries as [| entry rest IH]; simpl; [discriminate |].
  destruct (latest_loaded module_name rest k) as [s |].
  - intros H. injection H as ->. destruct (IH eq_refl) as [Hn [e [He Hl]]].
    split; [exact Hn |]. exists e. auto.
  - destruct (loaded_skill module_name entry) as [s |] eqn:Hl; [| discriminate].
    destruct (String.eqb k (name (metadata s))) eqn:Hk; [| discriminate].
    intros H. injection H as ->. apply String.eqb_eq in Hk.
    split; [now symmetry |]. exists entry. auto.
Qed.


Lemma dict_ext {V} (d1 d2 : list (string * V)) :
  NoDup (Dict.keys d1) ->
  Dict.keys d1 = Dict.keys d2 ->
  (forall k, Dict.getitem k d1 = Dict.getitem k d2) ->
  d1 = d2.
Proof.
  revert d2. induction d1 as [| [k1 v1] d1 IH]; intros [| [k2 v2] d2] Hnd Hk Hg;
    simpl in Hk; try discriminate; [reflexivity |].
  injection Hk as <- Hk. inversion Hnd as [| ? ? Hnin Hnd']; subst.
  pose proof (Hg k1) as Hhead. simpl in Hhead. rewrite String.eqb_refl in Hhead.
  injection Hhead as <-. f_equal. apply IH; [exact Hnd' | exact Hk |].
  intros k. destruct (String.eqb k k1) eqn:Hkk.
  - apply String.eqb_eq in Hkk. subst k.
    rewrite !mem_getitem_iff; [reflexivity | |]; apply not_in_keys_mem;
      [now rewrite <- Hk | exact Hnin].
  - specialize (Hg k). simpl in Hg. now rewrite Hkk in Hg.
Qed.

Lemma discover_loop_keys_stable (entries : list DirEntry) (module_name : string)
    (loaded_count : nat) (self : SkillRegistry) :
  (forall entry skill, In entry (processed module_name entries) ->
     loaded_skill module_name entry = Some skill ->
     Dict.mem (name (metadata skill)) (_skills self) = true) ->
  Dict.keys (_skills (snd (discover_loop entries module_name loaded_count self)))
  = Dict.keys (_skills self).
Proof.
  revert loaded_count self.
  induction entries as [| entry rest IH]; intros c self Hall.
  - reflexivity.
  - rewrite discover_loop_cons. simpl processed in Hall.
    destruct (abort_of module_name entry); [reflexivity |].
    destruct (loaded_skill module_name entry) as [skill |] eqn:Hl.
    + destruct (loaded_skill_valid _ _ _ Hl) as [b Hb].
      rewrite IH.
      * rewrite (register_valid_skills _ _ _ Hb), setitem_keys_eq.
        now rewrite (Hall entry skill (or_introl eq_refl) Hl).
      * intros e s He Hs. apply register_keeps. apply (Hall e s); [now right | exact Hs].
    + apply IH. intros e s He Hs. apply (Hall e s); [now right | exact Hs].
Qed.

Lemma coherent_eq (r1 r2 : SkillRegistry) :
  coherent r1 -> coherent r2 -> _skills r1 = _skills r2 -> r1 = r2.
Proof.
  intros [_ [H1 _]] [_ [H2 _]] Hs. destruct r1, r2. simpl in *. subst. reflexivity.
Qed.

(** X15. Discovery is idempotent: running [discover_and_load] a second
    time over the same directory leaves the registry exactly as the
    first run left it and has the same outcome (the same count, or the
    same raised value). *)
Theorem X15_discover_twice_changes_nothing
    (entries : list DirEntry) (module_name : string) (self : SkillRegistry) :
  reachable self ->
  discover_and_load (Some entries) module_name
    (snd (discover_and_load (Some entries) module_name self))
  = discover_and_load (Some entries) module_name self.
Proof.
  intros Hr. unfold discover_and_load.
  set (r1 := snd (discover_loop entries module_name 0 self)).
  assert (Hr1 : reachable r1) by now apply discover_loop_reachable.
  assert (Hr2 : reachable (snd (discover_loop entries module_name 0 r1)))
    by now apply discover_loop_reachable.
  apply reachable_coherent in Hr1, Hr2.
  rewrite (surjective_pairing (discover_loop entries module_name 0 r1)).
  rewrite (surjective_pairing (discover_loop entries module_name 0 self)).
  f_equal.
  - now rewrite !discover_loop_fst.
  - fold r1. apply coherent_eq; [exact Hr2 | exact Hr1 |].
    apply dict_ext.
    + apply Hr2.
    + apply discover_loop_keys_stable. intros entry skill He Hs.
      unfold r1. now apply discover_loop_registers with (entry := entry).
    + intros k. rewrite getitem_discover_loop. unfold r1 at 1.
      destruct (latest_loaded module_name (processed module_name entries) k)
        as [skill |] eqn:Hl.
      * unfold r1. now rewrite getitem_discover_loop, Hl.
      * reflexivity.
Qed.

Lemma X15_discover_twice_changes_nothing_witness :
  discover_and_load (Some Samples.three_dirs) "skill"
    (snd (discover_and_load (Some Samples.three_dirs) "skill" Samples.reg_X))
  = discover_and_load (Some Samples.three_dirs) "skill" Samples.reg_X.
Proof.
  apply (X15_discover_twice_changes_nothing Samples.three_dirs "skill"
           Samples.reg_X).
  exists [OpRegister Samples.X]. reflexivity.
Defined.

(** ** More on search *)

Lemma search_skips_split (lower : string -> string) (query : string)
    (tags : option (list string)) (visibility : option string)
    (meta : SkillMetadata) :
  search_skips lower query tags visibility meta
  = (search_skips lower query None None meta
     || search_skips lower "" tags None meta
     || search_skips lower "" None visibility meta)%bool.
Proof.
  unfold search_skips. cbn [Py.str_truthy andb].
  destruct (Py.str_truthy query
            && (negb (Py.str_in (lower query) (lower (name meta)))
                && negb (Py.str_in (lower query) (lower (description meta)))));
    [reflexivity |].
  destruct tags as [tags |]; [| now destruct visibility as [v |];
                                 [destruct (Py.str_truthy v && _) |]].
  destruct (Py.list_truthy tags && negb (any_tag_in tags (BaseSkillM.tags meta)));
    [reflexivity |].
  destruct visibility as [v |]; [| reflexivity].
  now destruct (Py.str_truthy v && negb (String.eqb (BaseSkillM.visibility meta) v)).
Qed.

(** X16. The criteria of [search] are combined with AND: a descriptor is
    returned for [(query, tags, visibility)] exactly when it is returned
    for the query alone, for the tags alone and for the visibility
    alone; with no criterion at all every cached descriptor is returned,
    in registration order. *)
Theorem X16_search_criteria_are_conjoined
    (lower : string -> string) (query : string) (tags : option (list string))
    (visibility : option string) (self : SkillRegistry) :
  (forall meta,
      In meta (search lower query tags visibility self)
      <-> In meta (search lower query None None self)
          /\ In meta (search lower "" tags None self)
          /\ In meta (search lower "" None visibility self))
  /\ search lower "" None None self = Dict.values (_metadata_cache self).
Proof.
  split.
  - intros meta. rewrite !search_is_filter, !filter_In.
    rewrite (search_skips_split lower query tags visibility meta).
    rewrite !negb_orb, !andb_true_iff. tauto.
  - rewrite search_is_filter. apply filter_all.
Qed.

(** X17. An empty [tags] list and an empty [visibility] string are no
    criterion at all: [search] returns what it returns when the argument
    is left at [None] (not the empty result a literal match would
    give). *)
Theorem X17_search_empty_criteria_are_ignored
    (lower : string -> string) (query : string) (tags : option (list string))
    (visibility : option string) (self : SkillRegistry) :
  search lower query (Some []) visibility self = search lower query None visibility self
  /\ search lower query tags (Some ""%string) self
     = search lower query tags None self.
Proof.
  rewrite !search_is_filter. split; apply filter_ext; intros meta;
    unfold search_skips; cbn [Py.list_truthy Py.str_truthy andb]; reflexivity.
Qed.

(** ** More on the reducers *)

Lemma filter_none {A} (p : A -> bool) (l : list A) :
  (forall a, In a l -> p a = false) -> filter p l = [].
Proof.
  induction l as [| a l IH]; intros H; simpl.
  - reflexivity.
  - rewrite (H a) by now left. apply IH. intros b Hb. apply H. now right.
Qed.

Lemma accumulator_empty_current (new : list string) :
  State.skill_list_accumulator [] new = new.
Proof. reflexivity. Qed.

Lemma in_dedup_concat (current incoming : list string) (s : string) :
  In s (StateSpec.dedup_concat current incoming) <-> In s current \/ In s incoming.
Proof.
  unfold StateSpec.dedup_concat. rewrite in_app_iff, filter_In.
  destruct (in_dec string_dec s current); intuition discriminate.
Qed.

(** X18. Accumulation never removes or reorders what is loaded: the
    result starts with [current] as it is, and it holds exactly the
    names of [current] and of [incoming]. *)
Theorem X18_accumulator_keeps_current (current new : list string) :
  (exists added, State.skill_list_accumulator current new = current ++ added)
  /\ forall s, In s (State.skill_list_accumulator current new)
               <-> In s current \/ In s new.
Proof.
  destruct current as [| c cs].
  - rewrite accumulator_empty_current. split; [now exists new |].
    intros s. simpl. tauto.
  - rewrite accumulator_nonempty. split.
    + unfold StateSpec.dedup_concat. eauto.
    + intros s. apply in_dedup_concat.
Qed.

(** X19. Reporting the same unlocks again changes nothing:
    accumulating [incoming] a second time gives the same list, and
    accumulating the empty list gives [current] back. *)
Theorem X19_accumulator_absorbs_repeats (current new : list string) :
  State.skill_list_accumulator (State.skill_list_accumulator current new) new
  = State.skill_list_accumulator current new
  /\ State.skill_list_accumulator current [] = current.
Proof.
  split.
  - destruct current as [| c cs].
    + rewrite accumulator_empty_current. destruct new as [| n ns]; [reflexivity |].
      rewrite accumulator_nonempty. unfold StateSpec.dedup_concat.
      rewrite filter_none; [apply app_nil_r |].
      intros s Hs. now destruct (in_dec string_dec s (n :: ns)).
    + rewrite accumulator_nonempty.
      remember (StateSpec.dedup_concat (c :: cs) new) as acc eqn:Hacc.
      destruct acc as [| a acc']; [discriminate Hacc |].
      rewrite accumulator_nonempty. unfold StateSpec.dedup_concat at 1.
      rewrite filter_none; [apply app_nil_r |].
      intros s Hs. destruct (in_dec string_dec s (a :: acc')) as [_ | Hn];
        [reflexivity |].
      exfalso. apply Hn. rewrite Hacc. apply in_dedup_concat. now right.
  - destruct current as [| c cs]; [reflexivity |].
    rewrite accumulator_nonempty. unfold StateSpec.dedup_concat.
    cbn [filter]. apply app_nil_r.
Qed.

(** X20. While everything fits, FIFO is accumulation: when the
    accumulated list is not longer than [max_skills], the FIFO reducer
    returns exactly the list the accumulate reducer returns. *)
Theorem X20_fifo_is_accumulator_while_it_fits
    (max_skills : Z) (current new : list string) :
  (Z.of_nat (List.length (State.skill_list_accumulator current new))
   <= max_skills)%Z ->
  State.skill_list_fifo max_skills current new
  = State.skill_list_accumulator current new.
Proof.
  destruct current as [| c cs].
  - rewrite accumulator_empty_current. intros Hlen.
    unfold State.skill_list_fifo. cbv [Py.list_truthy negb].
    rewrite slice_to_nonneg by lia. apply firstn_all2. lia.
  - rewrite accumulator_nonempty. intros Hlen.
    assert (Hpos : (1 <= max_skills)%Z).
    { unfold StateSpec.dedup_concat in Hlen. simpl in Hlen. lia. }
    rewrite (fifo_is_spec _ _ _ Hpos). unfold StateSpec.fifo, StateSpec.last_n.
    replace (List.length (StateSpec.dedup_concat (c :: cs) new)
             - Z.to_nat max_skills) with 0 by lia.
    reflexivity.
Qed.

Lemma X20_fifo_is_accumulator_while_it_fits_witness :
  State.skill_list_fifo 3 ["a"; "b"] ["b"; "c"]
  = State.skill_list_accumulator ["a"; "b"] ["b"; "c"].
Proof.
  apply (X20_fifo_is_accumulator_while_it_fits 3 ["a"; "b"] ["b"; "c"]).
  simpl. lia.
Defined.

Lemma in_firstn {A} (k : nat) (l : list A) (a : A) : In a (firstn k l) -> In a l.
Proof.
  intros H. rewrite <- (firstn_skipn k l). apply in_or_app. now left.
Qed.

Lemma in_skipn {A} (k : nat) (l : list A) (a : A) : In a (skipn k l) -> In a l.
Proof.
  intros H. rewrite <- (firstn_skipn k l). apply in_or_app. now right.
Qed.

Lemma fifo_keeps_fresh (max_skills : Z) (current : list string) (fresh : string) :
  (1 <= max_skills)%Z ->
  (Z.of_nat (List.length current) <= max_skills)%Z ->
  In fresh (State.skill_list_fifo max_skills current [fresh]).
Proof.
  intros Hmax Hlen.
  rewrite (fifo_is_spec _ _ _ Hmax). unfold StateSpec.fifo.
  destruct current as [| c cs].
  - unfold StateSpec.first_n.
    replace (Z.to_nat max_skills) with (S (Z.to_nat max_skills - 1)) by lia.
    now left.
  - unfold StateSpec.last_n, StateSpec.dedup_concat. cbn [filter].
    destruct (in_dec string_dec fresh (c :: cs)) as [Hin | Hnin].
    + rewrite app_nil_r.
      match goal with
      | |- In _ (skipn ?k _) => replace k with 0 by lia
      end.
      exact Hin.
    + rewrite skipn_app. apply in_or_app. right.
      match goal with
      | |- In _ (skipn ?k _) =>
          replace k with 0 by (rewrite length_app; cbn [List.length]; lia)
      end.
      now left.
Qed.

Lemma fifo_only_known (max_skills : Z) (current new : list string) (s : string) :
  In s (State.skill_list_fifo max_skills current new) ->
  In s current \/ In s new.
Proof.
  unfold State.skill_list_fifo.
  destruct current as [| c cs]; cbv [Py.list_truthy negb]; intros H.
  - right. unfold Py.slice_to in H. now apply in_firstn in H.
  - unfold Py.slice_from in H. apply in_skipn in H.
    rewrite combined_is_dedup_concat in H. now apply in_dedup_concat.
Qed.

(** X21. For any [max_skills] and any arguments, the result of the FIFO
    reducer holds only names of [current] and [incoming]. A FIFO list
    that respects its bound keeps a freshly unlocked name: for
    [max_skills >= 1] and a [current] of at most [max_skills] names, the
    name reported by a loader is in the new list. *)
Theorem X21_fifo_keeps_the_fresh_name
    (max_skills : Z) (current : list string) (fresh : string) :
  (forall new s, In s (State.skill_list_fifo max_skills current new) ->
                 In s current \/ In s new)
  /\ ((1 <= max_skills)%Z ->
      (Z.of_nat (List.length current) <= max_skills)%Z ->
      In fresh (State.skill_list_fifo max_skills current [fresh])).
Proof.
  split.
  - intros new s. apply fifo_only_known.
  - intros Hmax Hlen. now apply fifo_keeps_fresh.
Qed.

Lemma X21_fifo_keeps_the_fresh_name_witness :
  (forall new s, In s (State.skill_list_fifo 2 ["a"; "b"] new) ->
                 In s ["a"; "b"]%string \/ In s new)
  /\ In "c"%string (State.skill_list_fifo 2 ["a"; "b"] ["c"])
  /\ (forall new s, In s (State.skill_list_fifo (- 1) ["a"; "b"] new) ->
                    In s ["a"; "b"]%string \/ In s new).
Proof.
  split; [| split].
  - apply (X21_fifo_keeps_the_fresh_name 2 ["a"; "b"] "c").
  - apply (X21_fifo_keeps_the_fresh_name 2 ["a"; "b"] "c"); simpl; lia.
  - apply (X21_fifo_keeps_the_fresh_name (- 1) ["a"; "b"] "c").
Defined.

(** X22. [skill_list_fifo] does not reject a negative [max_skills], and
    the slices then drop instead of keep: for [max_skills = -k] with
    [k > 0] the reducer returns [incoming] without its last [k] names
    when [current] is empty, and otherwise the accumulated list without
    its first [k] names. *)
Theorem X22_fifo_negative_bound_drops
    (k : Z) (c : string) (cs new : list string) :
  (0 < k)%Z ->
  State.skill_list_fifo (- k) [] new
  = firstn (List.length new - Z.to_nat k) new
  /\ State.skill_list_fifo (- k) (c :: cs) new
     = skipn (Z.to_nat k) (StateSpec.dedup_concat (c :: cs) new).
Proof.
  intros Hk. unfold State.skill_list_fifo. cbv [Py.list_truthy negb]. split.
  - unfold Py.slice_to, Py.adjust_index.
    destruct (Z.ltb_spec (- k) 0) as [_ | H]; [| lia]. f_equal. lia.
  - rewrite combined_is_dedup_concat. rewrite Z.opp_involutive.
    unfold Py.slice_from, Py.adjust_index.
    destruct (Z.ltb_spec k 0) as [H | _]; [lia |].
    set (l := StateSpec.dedup_concat (c :: cs) new).
    destruct (Z.le_gt_cases k (Z.of_nat (List.length l))) as [Hle | Hgt].
    + now rewrite Z.min_l by assumption.
    + rewrite Z.min_r by lia. rewrite Nat2Z.id, skipn_all.
      symmetry. apply skipn_all2. lia.
Qed.

Lemma X22_fifo_negative_bound_drops_witness :
  State.skill_list_fifo (- 1) [] ["c"; "d"]
  = firstn (List.length ["c"; "d"]%string - Z.to_nat 1) ["c"; "d"]
  /\ State.skill_list_fifo (- 1) ("a"%string :: ["b"]) ["c"; "d"]
     = skipn (Z.to_nat 1) (StateSpec.dedup_concat ("a"%string :: ["b"]) ["c"; "d"]).
Proof.
  apply (X22_fifo_negative_bound_drops 1 "a" ["b"] ["c"; "d"]). lia.
Defined.

(** ** Validation *)

Lemma str_truthy_true_iff (s : string) : Py.str_truthy s = true <-> s <> ""%string.
Proof. destruct s; simpl; split; intros H; congruence. Qed.

Lemma list_truthy_true_iff {A} (l : list A) : Py.list_truthy l = true <-> l <> [].
Proof. destruct l; simpl; split; intros H; congruence. Qed.

Lemma tool_truthy_true_iff (t : BaseTool) : tool_truthy t = true <-> t <> PyNone.
Proof. destruct t; simpl; split; intros H; congruence. Qed.

(** X23. [validate] returns [True] exactly for a skill with a non-empty
    name, a non-empty description, at least one tool and a loader tool;
    for every other skill it raises, and it never returns [False]. *)
Theorem X23_validate_accepts_exactly (skill : BaseSkill) :
  (validate skill = Ok true
   <-> name (metadata skill) <> ""%string
       /\ description (metadata skill) <> ""%string
       /\ get_tools skill <> []
       /\ get_loader_tool skill <> PyNone)
  /\ validate skill <> Ok false.
Proof.
  rewrite <- !str_truthy_true_iff, <- list_truthy_true_iff, <- tool_truthy_true_iff.
  unfold validate.
  destruct (Py.str_truthy (name (metadata skill)));
    destruct (Py.str_truthy (description (metadata skill)));
    destruct (Py.list_truthy (get_tools skill));
    destruct (tool_truthy (get_loader_tool skill)); simpl;
    (split; [split; [intros H; try discriminate H; auto
                    | intros [H1 [H2 [H3 H4]]]; try discriminate; reflexivity]
            | discriminate]).
Qed.

(** ** More on the middleware *)

(** X24. With [verbose] off, [SkillMiddleware] only replaces the tools
    when the state holds a list of names under [skills_loaded], or has no
    such entry, or there is no state: the tool list is computed without
    error, and [wrap_model_call] and [awrap_model_call] return (or raise)
    exactly what the handler does on the request with that tool list and
    the state and the rest unchanged. When the state holds [None] or
    another value that cannot be iterated, both raise [TypeError] and the
    handler is not called. *)
Theorem X24_middleware_only_replaces_tools
    (ModelResponse : Type) (self : SkillMiddlewareM.SkillMiddleware)
    (request : SkillMiddlewareM.ModelRequest)
    (handler : SkillMiddlewareM.ModelRequest -> result ModelResponse) :
  SkillMiddlewareM.verbose self = false ->
  match SkillMiddlewareM.read_skills_loaded request with
  | SkillMiddlewareM.VNames names =>
      exists relevant_tools,
        get_tools_for_skills names (SkillMiddlewareM.registry self)
        = Ok relevant_tools
        /\ SkillMiddlewareM.wrap_model_call self request handler
           = handler
               {| SkillMiddlewareM.state := SkillMiddlewareM.state request;
                  SkillMiddlewareM.tools := relevant_tools;
                  SkillMiddlewareM.messages := SkillMiddlewareM.messages request |}
        /\ SkillMiddlewareM.awrap_model_call self request handler
           = handler
               {| SkillMiddlewareM.state := SkillMiddlewareM.state request;
                  SkillMiddlewareM.tools := relevant_tools;
                  SkillMiddlewareM.messages := SkillMiddlewareM.messages request |}
  | SkillMiddlewareM.VNone =>
      SkillMiddlewareM.wrap_model_call self request handler
      = Raise (TypeError "'NoneType' object is not iterable")
      /\ SkillMiddlewareM.awrap_model_call self request handler
         = Raise (TypeError "'NoneType' object is not iterable")
  | SkillMiddlewareM.VNotIterable type_name =>
      SkillMiddlewareM.wrap_model_call self request handler
      = Raise (TypeError ("'" ++ type_name ++ "' object is not iterable"))
      /\ SkillMiddlewareM.awrap_model_call self request handler
         = Raise (TypeError ("'" ++ type_name ++ "' object is not iterable"))
  end
  /\ (SkillMiddlewareM.state request = None ->
      SkillMiddlewareM.read_skills_loaded request = SkillMiddlewareM.VNames [])
  /\ (forall v,
        SkillMiddlewareM.state request
        = Some {| SkillMiddlewareM.skills_loaded := Some v |} ->
        SkillMiddlewareM.read_skills_loaded request = v).
Proof.
  intros _. split; [| split].
  - unfold SkillMiddlewareM.wrap_model_call, SkillMiddlewareM.awrap_model_call,
      SkillMiddlewareM._get_filtered_tools.
    rewrite bind_Ok_id.
    destruct (SkillMiddlewareM.read_skills_loaded request) as [names | | type_name];
      cbn [SkillMiddlewareM.get_tools_for_value].
    + eexists. split; [apply get_tools_for_skills_closed |].
      rewrite get_tools_for_skills_closed. split; reflexivity.
    + destruct (get_all_loader_tools_ok (SkillMiddlewareM.registry self))
        as [loaders Hl].
      rewrite Hl. split; reflexivity.
    + destruct (get_all_loader_tools_ok (SkillMiddlewareM.registry self))
        as [loaders Hl].
      rewrite Hl. split; reflexivity.
  - intros Hs. unfold SkillMiddlewareM.read_skills_loaded. now rewrite Hs.
  - intros v Hs. unfold SkillMiddlewareM.read_skills_loaded. now rewrite Hs.
Qed.

Lemma X24_middleware_only_replaces_tools_witness :
  SkillMiddlewareM.wrap_model_call
    (SkillMiddlewareM.init Samples.reg_X false None)
    {| SkillMiddlewareM.state :=
         Some {| SkillMiddlewareM.skills_loaded := Some SkillMiddlewareM.VNone |};
       SkillMiddlewareM.tools := [];
       SkillMiddlewareM.messages := [] |}
    (fun r => Ok (SkillMiddlewareM.tools r))
  = Raise (TypeError "'NoneType' object is not iterable")
  /\ SkillMiddlewareM.awrap_model_call
       (SkillMiddlewareM.init Samples.reg_X false None)
       {| SkillMiddlewareM.state :=
            Some {| SkillMiddlewareM.skills_loaded := Some SkillMiddlewareM.VNone |};
          SkillMiddlewareM.tools := [];
          SkillMiddlewareM.messages := [] |}
       (fun r => Ok (SkillMiddlewareM.tools r))
     = Raise (TypeError "'NoneType' object is not iterable").
Proof.
  apply (X24_middleware_only_replaces_tools (list BaseTool)
           (SkillMiddlewareM.init Samples.reg_X false None)
           {| SkillMiddlewareM.state :=
                Some {| SkillMiddlewareM.skills_loaded :=
                          Some SkillMiddlewareM.VNone |};
              SkillMiddlewareM.tools := [];
              SkillMiddlewareM.messages := [] |}
           (fun r => Ok (SkillMiddlewareM.tools r))).
  reflexivity.
Defined.

(** X25. [SimpleSkillMiddleware.get_tools_for_state] applies its
    [filter_fn]: it returns the tools of [get_tools_for_skills] that
    satisfy the filter, in the same order (all of them when no filter is
    given), so every tool it returns satisfies the filter. *)
Theorem X25_simple_middleware_applies_filter
    (reg : SkillRegistry) (verbose : bool) (f : BaseTool -> bool)
    (skills_loaded : list string) :
  exists unfiltered,
    get_tools_for_skills skills_loaded reg = Ok unfiltered
    /\ SimpleSkillMiddlewareM.get_tools_for_state
         (SimpleSkillMiddlewareM.init reg verbose (Some f)) skills_loaded
       = Ok (filter f unfiltered)
    /\ SimpleSkillMiddlewareM.get_tools_for_state
         (SimpleSkillMiddlewareM.init reg verbose None) skills_loaded
       = Ok unfiltered
    /\ Forall (fun t => f t = true) (filter f unfiltered).
Proof.
  eexists. split; [apply get_tools_for_skills_closed |].
  unfold SimpleSkillMiddlewareM.get_tools_for_state. simpl.
  rewrite get_tools_for_skills_closed. simpl. repeat split.
  apply Forall_forall. intros t Ht. apply filter_In in Ht. tauto.
Qed.

Lemma in_accumulator (current new : list string) (s : string) :
  In s (State.skill_list_accumulator current new) <-> In s current \/ In s new.
Proof.
  destruct current as [| c cs].
  - rewrite accumulator_empty_current. simpl. tauto.
  - rewrite accumulator_nonempty. apply in_dedup_concat.
Qed.

(** X26. Unlocking works end to end under each state schema: when a
    loader reports the name of a registered, enabled skill and the
    schema's reducer folds it into a [skills_loaded] of at most three
    names, the next [wrap_model_call] offers the model every tool of that
    skill. *)
Theorem X26_unlocked_skill_is_offered_next_turn
    (self : SkillMiddlewareM.SkillMiddleware) (schema : Config.StateSchema)
    (current : list string) (fresh : string) (skill : BaseSkill)
    (request : SkillMiddlewareM.ModelRequest) :
  get fresh (SkillMiddlewareM.registry self) = Ok skill ->
  enabled (metadata skill) = true ->
  List.length current <= 3 ->
  SkillMiddlewareM.state request
  = Some {| SkillMiddlewareM.skills_loaded :=
              Some (SkillMiddlewareM.VNames
                      (Config.schema_reducer schema current [fresh])) |} ->
  exists offered,
    SkillMiddlewareM.wrap_model_call self request
      (fun r => Ok (SkillMiddlewareM.tools r))
    = Ok offered
    /\ forall t, In t (get_tools skill) -> In t offered.
Proof.
  intros Hget Hen Hlen Hstate.
  assert (Hin : In fresh (Config.schema_reducer schema current [fresh])).
  { destruct schema; simpl.
    - now left.
    - apply in_accumulator. right. now left.
    - apply fifo_keeps_fresh; lia. }
  unfold SkillMiddlewareM.wrap_model_call, SkillMiddlewareM._get_filtered_tools,
    SkillMiddlewareM.read_skills_loaded.
  rewrite Hstate.
  cbn [SkillMiddlewareM.skills_loaded SkillMiddlewareM.get_tools_for_value].
  rewrite bind_Ok_id, get_tools_for_skills_closed. cbn [bind].
  eexists. split; [reflexivity |].
  intros t Ht. cbn [SkillMiddlewareM.override SkillMiddlewareM.tools].
  apply in_or_app. right. apply in_flat_map. exists fresh. split; [exact Hin |].
  apply in_of_name. exists skill. split; [exact Hget |].
  unfold entry_tools. now rewrite Hen.
Qed.

Lemma X26_unlocked_skill_is_offered_next_turn_witness :
  exists offered,
    SkillMiddlewareM.wrap_model_call
      (SkillMiddlewareM.init Samples.reg_X false None)
      {| SkillMiddlewareM.state :=
           Some {| SkillMiddlewareM.skills_loaded :=
                     Some (SkillMiddlewareM.VNames
                             (Config.schema_reducer Config.SkillStateFIFO
                                ["a"; "b"; "c"] ["X"%string])) |};
         SkillMiddlewareM.tools := [];
         SkillMiddlewareM.messages := [] |}
      (fun r => Ok (SkillMiddlewareM.tools r))
    = Ok offered
    /\ forall t, In t (get_tools Samples.X) -> In t offered.
Proof.
  apply (X26_unlocked_skill_is_offered_next_turn
           (SkillMiddlewareM.init Samples.reg_X false None)
           Config.SkillStateFIFO ["a"; "b"; "c"] "X" Samples.X).
  - reflexivity.
  - reflexivity.
  - simpl. lia.
  - reflexivity.
Defined.

(** ** Checking a skill directory *)

(** X27. [validate_skill_structure] reports no issue exactly for an
    existing directory that holds [skill.py], [instructions.md] and
    [config.yaml] (a missing optional file is reported as an issue too);
    it reports at most three issues; and a directory for which it
    reports the missing [skill.py] is one [discover_and_load] passes
    over without registering anything. *)
Theorem X27_validate_skill_structure_issues
    (skill_dir : string) (on_disk : option DirEntry) :
  (Helpers.validate_skill_structure skill_dir on_disk = []
   <-> exists d,
         on_disk = Some d
         /\ is_dir d = true
         /\ file_at d "skill.py" <> None
         /\ file_at d "instructions.md" <> None
         /\ file_at d "config.yaml" <> None)
  /\ List.length (Helpers.validate_skill_structure skill_dir on_disk) <= 3
  /\ (forall d self,
        In "Missing required file: skill.py"%string
          (Helpers.validate_skill_structure skill_dir (Some d)) ->
        discover_and_load (Some [d]) "skill" self = (Ok 0, self)).
Proof.
  split; [| split].
  - unfold Helpers.validate_skill_structure. destruct on_disk as [d |].
    + split.
      * intros H. exists d. split; [reflexivity |].
        destruct (is_dir d); cbn [negb] in H; [| discriminate H].
        cbn [Helpers.required_loop Helpers.optional_loop app] in H.
        destruct (file_at d "skill.py"), (file_at d "instructions.md"),
          (file_at d "config.yaml"); simpl in H; try discriminate H.
        repeat split; discriminate.
      * intros [d' [Hd [Hdir [H1 [H2 H3]]]]]. injection Hd as <-.
        rewrite Hdir. cbn [Helpers.required_loop Helpers.optional_loop negb app].
        destruct (file_at d "skill.py"); [| contradiction].
        destruct (file_at d "instructions.md"); [| contradiction].
        destruct (file_at d "config.yaml"); [| contradiction].
        reflexivity.
    + split; [discriminate |]. intros [d [Hd _]]. discriminate Hd.
  - unfold Helpers.validate_skill_structure. destruct on_disk as [d |]; [| simpl; lia].
    destruct (is_dir d); [| simpl; lia].
    cbn [Helpers.required_loop Helpers.optional_loop negb app].
    destruct (file_at d "skill.py"), (file_at d "instructions.md"),
      (file_at d "config.yaml"); simpl; lia.
  - intros d self. unfold Helpers.validate_skill_structure, discover_and_load.
    cbn [discover_loop]. destruct (is_dir d); cbn [negb]; [| reflexivity].
    change ("skill" ++ ".py")%string with "skill.py"%string.
    cbn [Helpers.required_loop Helpers.optional_loop negb app].
    destruct (file_at d "skill.py"); [| reflexivity].
    intros H. exfalso.
    destruct (file_at d "instructions.md"), (file_at d "config.yaml");
      simpl in H;
      repeat (destruct H as [H | H]; [discriminate H |]); destruct H.
Qed.

(** ** The state mode *)

Lemma fifo3_length (current new : list string) :
  List.length (State.skill_list_fifo 3 current new) <= 3.
Proof.
  rewrite fifo_is_spec by lia. apply (fifo_spec_length 3).
Qed.

(** X28. The two checks of [state_mode] agree: a mode that
    [SkillSystemConfig.__post_init__] accepts is given a state schema by
    [create_skill_agent], and a mode it rejects with [ValueError] is one
    [create_skill_agent] would reject too; the comparison is exact, so
    ["FIFO"] is rejected. Under the schema chosen for ["fifo"] the list
    never holds more than three names. *)
Theorem X28_state_mode_checks_agree (state_mode : string) :
  ((exists schema,
       Config.post_init_state_mode state_mode = Ok tt
       /\ Config.select_state_schema state_mode = Ok schema
       /\ In state_mode ["replace"; "accumulate"; "fifo"]%string)
   \/ (exists msg1 msg2,
         Config.post_init_state_mode state_mode = Raise (ValueError msg1)
         /\ Config.select_state_schema state_mode = Raise (ValueError msg2)
         /\ ~ In state_mode ["replace"; "accumulate"; "fifo"]%string))
  /\ Config.post_init_state_mode "FIFO"
     = Raise (ValueError
                "Invalid state_mode: FIFO. Must be one of ['replace', 'accumulate', 'fifo']")
  /\ Config.select_state_schema "fifo" = Ok Config.SkillStateFIFO
  /\ forall current new,
       List.length (Config.schema_reducer Config.SkillStateFIFO current new) <= 3.
Proof.
  split; [| split; [reflexivity | split; [reflexivity | apply fifo3_length]]].
  unfold Config.post_init_state_mode, Config.select_state_schema, Py.contains.
  cbn [existsb].
  destruct (String.eqb state_mode "replace") eqn:H1;
    [left; eexists; repeat split; apply String.eqb_eq in H1; simpl; auto |].
  destruct (String.eqb state_mode "accumulate") eqn:H2;
    [left; eexists; repeat split; apply String.eqb_eq in H2; simpl; auto |].
  destruct (String.eqb state_mode "fifo") eqn:H3;
    [left; eexists; repeat split; apply String.eqb_eq in H3; simpl; auto |].
  right. do 2 eexists. repeat split.
  apply String.eqb_neq in H1, H2, H3. simpl. intuition congruence.
Qed.
